(** * get_comet_data.py: the JPL SBDB comet downloader

    A shallow embedding of [get_comet_data.py]: the payload decoded from the
    SBDB query API, the three writers ([save_as_csv], [save_as_json],
    [save_as_kstars]), the KStars re-projection
    ([convert_to_kstars_format]) and the part of [main] that follows the
    fetch.  The network call itself is the environment: every function
    below starts from the value that [get_comet_data] returned.

    - Values are the interpreter's: integers are unbounded, floats are
      binary64 with the kernel's IEEE 754 operations.
    - A function either returns or raises; the writers also act on a world
      of files and console output, so that what is left behind when a
      writer gives up can be stated.
    - [float()] on a string is a parameter of the development
      ([StrToFloat]); the statements hold for every such parser. *)

From Stdlib Require Import ZArith Floats Uint63 Ascii.
From stdpp Require Import gmap strings list fin_maps.

Local Open Scope Z_scope.

(** ** Values of the interpreter

    What [response.json()] can produce: [None], booleans, integers of any
    size, binary64 floats, strings, lists and dictionaries with string keys.
    A dictionary keeps its insertion order, so it is a list of pairs; the
    keys of a decoded JSON object are distinct. *)

#[warnings="-register-all"]
Inductive value : Type :=
| VNone
| VBool (b : bool)
| VInt (z : Z)
| VFloat (f : float)
| VStr (s : string)
| VList (items : list value)
| VDict (entries : list (string * value)).

Abbreviation dict := (list (string * value)).

(** The exceptions the program can meet. *)
Inductive exn : Type :=
| IndexError | KeyError | TypeError | ValueError | OverflowError
| CsvError | OSError.

(** A computation either returns or raises. *)
Inductive result (A : Type) : Type :=
| Ok (a : A)
| Raise (e : exn).
Arguments Ok {A} a.
Arguments Raise {A} e.

#[global] Instance result_ret : MRet result := @Ok.

#[global] Instance result_bind : MBind result := fun A B k c =>
  match c with
  | Ok a => k a
  | Raise e => Raise e
  end.

(** [try: c except (E1, E2): fallback]: the handler runs for the listed
    exceptions only, any other one propagates. *)
Definition try_except {A : Type} (c : result A) (handled : exn -> bool)
    (fallback : result A) : result A :=
  match c with
  | Ok a => Ok a
  | Raise e => if handled e then fallback else Raise e
  end.

(** ** Built-ins *)

(** [bool(v)]: what [not v] negates. *)
Definition truthy (v : value) : bool :=
  match v with
  | VNone => false
  | VBool b => b
  | VInt z => negb (z =? 0)
  | VFloat f => negb (f =? 0)%float
  | VStr s => negb (String.eqb s "")
  | VList items => match items with [] => false | _ => true end
  | VDict entries => match entries with [] => false | _ => true end
  end.

(** [key in d] and [d[key]] on a dictionary. *)
Fixpoint dict_get (d : dict) (key : string) : option value :=
  match d with
  | [] => None
  | (k, v) :: rest => if String.eqb k key then Some v else dict_get rest key
  end.

Definition dict_has (d : dict) (key : string) : bool :=
  match dict_get d key with Some _ => true | None => false end.

Definition dict_lookup (d : dict) (key : string) : result value :=
  match dict_get d key with Some v => Ok v | None => Raise KeyError end.

(** [d[key] = v]: an existing key keeps its position. *)
Fixpoint dict_set (d : dict) (key : string) (v : value) : dict :=
  match d with
  | [] => [(key, v)]
  | (k, w) :: rest =>
      if String.eqb k key then (k, v) :: rest else (k, w) :: dict_set rest key v
  end.

(** [field == 'name']: a string equals only the same string. *)
Definition is_str (v : value) (name : string) : bool :=
  match v with
  | VStr s => String.eqb s name
  | _ => false
  end.

(** The characters of a string, each as a one-character string. *)
Fixpoint chars (s : string) : list value :=
  match s with
  | EmptyString => []
  | String c rest => VStr (String c EmptyString) :: chars rest
  end.

(** [iter(v)]: what a [for] loop, [enumerate] or [csv.writer] walks through.
    A dictionary yields its keys; a scalar is not iterable. *)
Definition py_iter (v : value) : result (list value) :=
  match v with
  | VList items => Ok items
  | VStr s => Ok (chars s)
  | VDict entries => Ok (map (fun kv => VStr (fst kv)) entries)
  | _ => Raise TypeError
  end.

(** [row[i]] for an index [i >= 0], as [enumerate] produces them.  A
    dictionary decoded from JSON has no integer key. *)
Definition py_getitem (row : value) (i : nat) : result value :=
  match row with
  | VList items =>
      match items !! i with Some v => Ok v | None => Raise IndexError end
  | VStr s =>
      match chars s !! i with Some v => Ok v | None => Raise IndexError end
  | VDict _ => Raise KeyError
  | _ => Raise TypeError
  end.

(** [xs[:n]] on a list: a negative [n] counts from the end. *)
Definition slice_to {A : Type} (xs : list A) (n : Z) : list A :=
  if 0 <=? n then take (Z.to_nat n) xs
  else take (Z.to_nat (Z.of_nat (length xs) + n)) xs.

(** ** [float()]

    Floats are binary64, as in the interpreter; the arithmetic below is the
    kernel's IEEE 754 arithmetic. *)

(** [float(z)] for an integer rounds to the nearest double, ties to even,
    and raises [OverflowError] when the rounded value does not fit. *)
Definition float_of_nonneg (a : Z) : option float :=
  if a <? 2 ^ 53 then Some (of_uint63 (Uint63.of_Z a))
  else
    let sh := Z.log2 a - 52 in
    let q := Z.shiftr a sh in
    let r := Z.land a (Z.ones sh) in
    let half := 2 ^ (sh - 1) in
    let q' := if (half <? r) || ((r =? half) && Z.odd q) then q + 1 else q in
    if 2 ^ 1024 <=? q' * 2 ^ sh then None
    else Some (Z.ldexp (of_uint63 (Uint63.of_Z q')) sh).

Definition float_of_int (z : Z) : result float :=
  match float_of_nonneg (Z.abs z) with
  | Some f => Ok (if z <? 0 then (- f)%float else f)
  | None => Raise OverflowError
  end.

(** [float(s)] for a string is the interpreter's parser of float literals;
    [None] stands for [ValueError].  The development is parametric in it. *)
Class StrToFloat := float_of_str : string -> option float.

Definition py_float `{StrToFloat} (v : value) : result float :=
  match v with
  | VFloat f => Ok f
  | VInt z => float_of_int z
  | VBool b => Ok (if b then 1%float else 0%float)
  | VStr s => match float_of_str s with Some f => Ok f | None => Raise ValueError end
  | VNone | VList _ | VDict _ => Raise TypeError
  end.

(** ** The KStars re-projection: [convert_to_kstars_format] *)

Definition kstars_fields : list string :=
  ["full_name"; "epoch.mjd"; "q"; "e"; "i"; "w"; "om"; "tp"; "orbit_id"; "neo";
   "M1"; "M2"; "diameter"; "extent"; "albedo"; "rot_per"; "per.y"; "moid"; "H";
   "G"; "class"]%string.

Definition kstars_signature : string :=
  "KStars comet data converted from JPL SBDB API".

(** One turn of the [if]/[elif] chain that fills [field_map]. *)
Definition add_field (field_map : gmap string nat) (i : nat) (field : value)
  : gmap string nat :=
  if is_str field "full_name" then <["full_name"%string := i]> field_map
  else if is_str field "epoch" then <["epoch.mjd"%string := i]> field_map
  else if is_str field "q" then <["q"%string := i]> field_map
  else if is_str field "e" then <["e"%string := i]> field_map
  else if is_str field "i" then <["i"%string := i]> field_map
  else if is_str field "w" then <["w"%string := i]> field_map
  else if is_str field "om" then <["om"%string := i]> field_map
  else if is_str field "tp" then <["tp"%string := i]> field_map
  else if is_str field "moid" then <["moid"%string := i]> field_map
  else if is_str field "H" then <["H"%string := i]> field_map
  else if is_str field "class" then <["class"%string := i]> field_map
  else if is_str field "per" then <["per.y"%string := i]> field_map
  else field_map.

(** [for i, field in enumerate(jpl_fields)], counting from [i]. *)
Fixpoint fill_field_map (jpl_fields : list value) (i : nat)
    (field_map : gmap string nat) : gmap string nat :=
  match jpl_fields with
  | [] => field_map
  | field :: rest => fill_field_map rest (S i) (add_field field_map i field)
  end.

Definition only_value_or_type (e : exn) : bool :=
  match e with ValueError | TypeError => true | _ => false end.

Definition is_none (v : value) : bool :=
  match v with VNone => true | _ => false end.

(** The special conversions applied to one looked-up value. *)
Definition convert_value `{StrToFloat} (field : string) (v : value) : result value :=
  if String.eqb field "per.y" && negb (is_none v) then
    try_except
      (x ← py_float v; Ok (VFloat (x / 365.25)))
      only_value_or_type (Ok VNone)
  else if String.eqb field "epoch.mjd" && negb (is_none v) then
    try_except
      (epoch_val ← py_float v;
       if (2400000 <? epoch_val)%float
       then Ok (VFloat (epoch_val - 2400000.5))
       else Ok (VFloat epoch_val))
      only_value_or_type (Ok VNone)
  else Ok v.

(** The inner loop: one output cell per KStars field. *)
Definition convert_cell `{StrToFloat} (field_map : gmap string nat) (row : value)
    (field : string) : result value :=
  match field_map !! field with
  | Some i => v ← py_getitem row i; convert_value field v
  | None => Ok VNone
  end.

Definition convert_row `{StrToFloat} (field_map : gmap string nat) (row : value)
  : result value :=
  kstars_row ← mapM (convert_cell field_map row) kstars_fields;
  Ok (VList kstars_row).

(** The payload is [None] or a dictionary, as [get_comet_data] documents.
    The result is [None] or the KStars dictionary. *)
Definition payload_value (data : option dict) : value :=
  match data with None => VNone | Some d => VDict d end.

(** [not data or 'data' not in data or 'fields' not in data] *)
Definition payload_missing (data : option dict) : bool :=
  match data with
  | None => true
  | Some d =>
      negb (truthy (VDict d)) || negb (dict_has d "data") || negb (dict_has d "fields")
  end.

Definition convert_to_kstars_format `{StrToFloat} (data : option dict) : result value :=
  match data with
  | None => Ok VNone
  | Some d =>
      if payload_missing (Some d) then Ok VNone
      else
        jpl_fields ← dict_lookup d "fields";
        fields ← py_iter jpl_fields;
        let field_map := fill_field_map fields 0 ∅ in
        rows ← dict_lookup d "data";
        rows ← py_iter rows;
        kstars_data ← mapM (convert_row field_map) rows;
        Ok (VDict [("signature"%string, VStr kstars_signature);
                   ("fields"%string, VList (VStr <$> kstars_fields));
                   ("data"%string, VList kstars_data);
                   ("count"%string, VInt (Z.of_nat (length kstars_data)))])
  end.

(** ** The world: files and the console

    A file holds what was written to it, in order: the records handed to
    [csv.writer] and the chunks emitted by [json.dump].  The byte-level
    rendering of a record or of a number is the library's, not the
    program's, and is not unfolded further. *)

Inductive token : Type :=
| Punct (s : string)       (* brackets, separators and layout, as emitted *)
| TNull
| TBool (b : bool)
| TInt (z : Z)
| TFloat (f : float)
| TStr (s : string).       (* a string literal, quoted and escaped *)

Inductive entry : Type :=
| CsvRecord (cells : list value)
| JsonChunk (t : token).

Inductive message : Type :=
| NoDataToSave
| NoCometRecordsFound
| DataSavedTo (filename : string)
| ErrorSavingCSV (e : exn)
| ErrorSavingJSON (e : exn)
| ErrorConvertingToKStars
| DataSavedInKStarsFormat (filename : string)
| CompatibleWithKStars
| ErrorSavingKStars (e : exn)
| LimitedResults (n : Z)
| SuccessfullyDownloaded (filename : string)
| TotalRecords (n : nat)
| ToUseWithKStars (filename : string).

(** [refused] are the paths the operating system will not open for
    writing.  A write to a file that is open is taken to succeed. *)
Record world : Type := World {
  files : gmap string (list entry);
  refused : gset string;
  console : list message
}.

Definition io (A : Type) : Type := world -> result A * world.

#[global] Instance io_ret : MRet io := fun A a w => (Ok a, w).

#[global] Instance io_bind : MBind io := fun A B k c w =>
  match c w with
  | (Ok a, w') => k a w'
  | (Raise e, w') => (Raise e, w')
  end.

Definition lift {A : Type} (c : result A) : io A := fun w => (c, w).

Definition print (m : message) : io unit := fun w =>
  (Ok tt, World (files w) (refused w) (console w ++ [m])).

(** [open(filename, 'w')]: creates the file or truncates it. *)
Definition open_w (filename : string) : io unit := fun w =>
  if decide (filename ∈ refused w) then (Raise OSError, w)
  else (Ok tt, World (<[filename := []]> (files w)) (refused w) (console w)).

Definition write (filename : string) (es : list entry) : io unit := fun w =>
  (Ok tt,
   World (<[filename := default [] (files w !! filename) ++ es]> (files w))
         (refused w) (console w)).

(** [try: c except Exception as e: handler(e)]. *)
Definition try_io {A : Type} (c : io A) (handler : exn -> io A) : io A := fun w =>
  match c w with
  | (Ok a, w') => (Ok a, w')
  | (Raise e, w') => handler e w'
  end.

(** ** [json.dump] *)

Record json_style : Type := JsonStyle {
  indent : option nat;
  item_separator : string;
  key_separator : string
}.

(** [json.dump(data, f, indent=2)] *)
Definition indent2 : json_style := JsonStyle (Some 2%nat) "," ": ".
(** [json.dump(data, f, separators=(',', ':'))] *)
Definition compact : json_style := JsonStyle None "," ":".

Definition newline : string := String (Ascii.ascii_of_nat 10) EmptyString.

Fixpoint spaces (n : nat) : string :=
  match n with O => EmptyString | S k => (" " ++ spaces k)%string end.

Definition newline_indent (st : json_style) (level : nat) : list token :=
  match indent st with
  | Some n => [Punct (newline ++ spaces (n * level))]
  | None => []
  end.

Fixpoint join_chunks (sep : list token) (chunks : list (list token)) : list token :=
  match chunks with
  | [] => []
  | [c] => c
  | c :: rest => c ++ sep ++ join_chunks sep rest
  end.

Fixpoint json_tokens (st : json_style) (level : nat) (v : value) : list token :=
  match v with
  | VNone => [TNull]
  | VBool b => [TBool b]
  | VInt z => [TInt z]
  | VFloat f => [TFloat f]
  | VStr s => [TStr s]
  | VList [] => [Punct "[]"]
  | VList items =>
      Punct "[" :: newline_indent st (S level)
      ++ join_chunks (Punct (item_separator st) :: newline_indent st (S level))
           (map (json_tokens st (S level)) items)
      ++ newline_indent st level ++ [Punct "]"]
  | VDict [] => [Punct "{}"]
  | VDict entries =>
      Punct "{" :: newline_indent st (S level)
      ++ join_chunks (Punct (item_separator st) :: newline_indent st (S level))
           (map (fun kv => let '(k, x) := kv in
                           TStr k :: Punct (key_separator st) :: json_tokens st (S level) x)
                entries)
      ++ newline_indent st level ++ [Punct "}"]
  end.

Definition json_dump (st : json_style) (v : value) (filename : string) : io unit :=
  write filename (JsonChunk <$> json_tokens st 0 v).

(** ** [csv.writer] *)

(** [writer.writerow(row)]: the row must be iterable. *)
Definition writerow (filename : string) (row : value) : io unit :=
  cells ← lift (try_except (py_iter row) (fun _ => true) (Raise CsvError));
  write filename [CsvRecord cells].

Fixpoint writerows_list (filename : string) (rows : list value) : io unit :=
  match rows with
  | [] => mret tt
  | row :: rest => _ ← writerow filename row; writerows_list filename rest
  end.

Definition writerows (filename : string) (rows : value) : io unit :=
  rows ← lift (py_iter rows);
  writerows_list filename rows.

(** ** The writers *)

Definition save_as_csv (data : option dict) (filename : string) : io bool :=
  match data with
  | None => _ ← print NoDataToSave; mret false
  | Some d =>
      if payload_missing (Some d) then _ ← print NoDataToSave; mret false
      else
        try_io
          (_ ← open_w filename;
           rows ← lift (dict_lookup d "data");
           if negb (truthy rows) then _ ← print NoCometRecordsFound; mret false
           else
             fieldnames ← lift (dict_lookup d "fields");
             _ ← writerow filename fieldnames;
             rows ← lift (dict_lookup d "data");
             _ ← writerows filename rows;
             _ ← print (DataSavedTo filename);
             mret true)
          (fun e => _ ← print (ErrorSavingCSV e); mret false)
  end.

Definition save_as_json (data : option dict) (filename : string) : io bool :=
  if negb (truthy (payload_value data)) then _ ← print NoDataToSave; mret false
  else
    try_io
      (_ ← open_w filename;
       _ ← json_dump indent2 (payload_value data) filename;
       _ ← print (DataSavedTo filename);
       mret true)
      (fun e => _ ← print (ErrorSavingJSON e); mret false).

Definition save_as_kstars `{StrToFloat} (data : option dict) (filename : string)
  : io bool :=
  if negb (truthy (payload_value data)) then _ ← print NoDataToSave; mret false
  else
    try_io
      (kstars_data ← lift (convert_to_kstars_format data);
       if negb (truthy kstars_data) then
         _ ← print ErrorConvertingToKStars; mret false
       else
         _ ← open_w filename;
         _ ← json_dump compact kstars_data filename;
         _ ← print (DataSavedInKStarsFormat filename);
         _ ← print CompatibleWithKStars;
         mret true)
      (fun e => _ ← print (ErrorSavingKStars e); mret false).

(** ** The driver: [main] after the fetch *)

Inductive format : Type := FormatJson | FormatCsv | FormatKstars.

Record args : Type := Args {
  arg_format : format;
  arg_output : string;
  arg_include_fragments : bool;
  arg_numbered_only : bool;
  arg_limit : option Z
}.

(** [v[:n]]: lists and strings can be sliced; a scalar raises [TypeError],
    and so does a dictionary ([KeyError] from Python 3.12 on). *)
Definition py_slice_to (v : value) (n : Z) : result value :=
  match v with
  | VList items => Ok (VList (slice_to items n))
  | VStr s => Ok (VStr (String.string_of_list_ascii (slice_to (String.list_ascii_of_string s) n)))
  | _ => Raise TypeError
  end.

(** [len(v)] *)
Definition py_len (v : value) : result nat :=
  match v with
  | VList items => Ok (length items)
  | VStr s => Ok (String.length s)
  | VDict entries => Ok (length entries)
  | _ => Raise TypeError
  end.

(** [args.limit] is [None] without the option; [if args.limit] is false for
    [None] and for [0]. *)
Definition limit_given (limit : option Z) : bool :=
  match limit with Some n => negb (n =? 0) | None => false end.

(** The block "Apply limit if specified": the payload handed to the writer. *)
Definition apply_limit (a : args) (d : dict) : io dict :=
  if limit_given (arg_limit a) && dict_has d "data" then
    let n := default 0 (arg_limit a) in
    rows ← lift (dict_lookup d "data");
    cut ← lift (py_slice_to rows n);
    _ ← print (LimitedResults n);
    mret (dict_set d "data" cut)
  else mret d.

Definition save `{StrToFloat} (a : args) (d : dict) : io (bool * string) :=
  match arg_format a with
  | FormatCsv =>
      let filename := (arg_output a ++ ".csv")%string in
      success ← save_as_csv (Some d) filename; mret (success, filename)
  | FormatKstars =>
      let filename := (arg_output a ++ ".dat")%string in
      success ← save_as_kstars (Some d) filename; mret (success, filename)
  | FormatJson =>
      let filename := (arg_output a ++ ".json")%string in
      success ← save_as_json (Some d) filename; mret (success, filename)
  end.

(** What follows the writer: the closing messages and the exit status. *)
Definition report (a : args) (d : dict) (success : bool) (filename : string) : io Z :=
  if success then
    _ ← print (SuccessfullyDownloaded filename);
    _ ← (if dict_has d "data" then
           rows ← lift (dict_lookup d "data");
           n ← lift (py_len rows);
           print (TotalRecords n)
         else mret tt);
    _ ← (match arg_format a with
         | FormatKstars => print (ToUseWithKStars filename)
         | _ => mret tt
         end);
    mret 0
  else mret 1.

(** [main], given what [get_comet_data] returned.  The result is the exit
    status; an exception that reaches the top ends the run with a
    traceback. *)
Definition main `{StrToFloat} (a : args) (fetched : option dict) : io Z :=
  if negb (truthy (payload_value fetched)) then mret 1
  else
    d ← apply_limit a (default [] fetched);
    '(success, filename) ← save a d;
    report a d success filename.

(** ** A parser of plain decimal literals

    An instance of [float()] on strings for running the model: it reads
    [digits], [digits.digits] and a leading sign when the digits fit a
    double exactly (below [2^53], at most 18 after the point), where one
    correctly rounded division gives the nearest double, and rejects every
    other string. *)

Definition digit_of (c : Ascii.ascii) : option Z :=
  let n := Z.of_nat (Ascii.nat_of_ascii c) in
  if (48 <=? n) && (n <=? 57) then Some (n - 48) else None.

Fixpoint read_digits (s : string) (acc : Z) (count : nat) : Z * nat * string :=
  match s with
  | EmptyString => (acc, count, s)
  | String c rest =>
      match digit_of c with
      | Some d => read_digits rest (10 * acc + d) (S count)
      | None => (acc, count, s)
      end
  end.

Definition read_unsigned (s : string) : option float :=
  let '(whole, n1, rest) := read_digits s 0 0%nat in
  match rest with
  | EmptyString =>
      if (0 <? n1)%nat && (whole <? 2 ^ 53) then Some (of_uint63 (Uint63.of_Z whole))
      else None
  | String "."%char frac =>
      let '(m, n, rest') := read_digits frac whole n1 in
      match rest' with
      | EmptyString =>
          if (0 <? n)%nat && (m <? 2 ^ 53) && (n - n1 <=? 18)%nat then
            Some (of_uint63 (Uint63.of_Z m)
                  / of_uint63 (Uint63.of_Z (10 ^ Z.of_nat (n - n1))))%float
          else None
      | _ => None
      end
  | _ => None
  end.

Definition plain_decimal : StrToFloat := fun s =>
  match s with
  | String "-"%char rest => (fun f => (- f)%float) <$> read_unsigned rest
  | String "+"%char rest => read_unsigned rest
  | _ => read_unsigned s
  end.

(** ** Vocabulary of the statements *)

(** The pairs (source field, KStars field) of the [if]/[elif] chain, in its
    order. *)
Definition field_pairs : list (string * string) :=
  [("full_name", "full_name"); ("epoch", "epoch.mjd"); ("q", "q"); ("e", "e");
   ("i", "i"); ("w", "w"); ("om", "om"); ("tp", "tp"); ("moid", "moid");
   ("H", "H"); ("class", "class"); ("per", "per.y")]%string.

(** The key that one turn of the chain writes, if any. *)
Definition key_of (field : value) : option string :=
  snd <$> find (fun p => is_str field (fst p)) field_pairs.

(** The index of the last element satisfying [P], counting from [i];
    [found] when there is none. *)
Fixpoint last_index (P : value -> bool) (fields : list value) (i : nat)
    (found : option nat) : option nat :=
  match fields with
  | [] => found
  | f :: rest => last_index P rest (S i) (if P f then Some i else found)
  end.

(** An integer that [float()] takes; every other value is in range. *)
Definition in_float_range (v : value) : bool :=
  match v with
  | VInt z => match float_of_int z with Ok _ => true | Raise _ => false end
  | _ => true
  end.

(** A row of a table with [width] fields: a list with a cell for each field
    (in a table the two lengths are equal) whose integers [float()] takes. *)
Definition row_covers (width : nat) (row : value) : bool :=
  match row with
  | VList cells => (width <=? length cells)%nat && forallb in_float_range cells
  | _ => false
  end.

(** The dictionary that [convert_to_kstars_format] builds around its rows. *)
Definition kstars_table (kstars_data : list value) : value :=
  VDict [("signature"%string, VStr kstars_signature);
         ("fields"%string, VList (VStr <$> kstars_fields));
         ("data"%string, VList kstars_data);
         ("count"%string, VInt (Z.of_nat (length kstars_data)))].

(** No whitespace in a piece of layout. *)
Definition is_space (c : ascii) : bool :=
  let n := nat_of_ascii c in
  (n =? 32)%nat || (n =? 9)%nat || (n =? 10)%nat || (n =? 13)%nat.

Fixpoint no_space (s : string) : bool :=
  match s with
  | EmptyString => true
  | String c rest => negb (is_space c) && no_space rest
  end.

Definition tight (t : token) : bool :=
  match t with Punct s => no_space s | _ => true end.

(** ** Sample payloads and worlds *)

Definition empty_world : world := World ∅ ∅ [].

(** Two comets, with the source fields in an order of their own. *)
Definition halley_payload : dict :=
  [("fields"%string, VList [VStr "per"; VStr "full_name"; VStr "epoch"; VStr "e"]);
   ("data"%string,
    VList [VList [VStr "27740.5"; VStr "1P/Halley"; VStr "2450000.5"; VStr "0.967"];
           VList [VStr "1204"; VStr "2P/Encke"; VStr "51544"; VNone]])].

(** A source with a field named as a KStars field that the chain skips. *)
Definition neo_payload : dict :=
  [("fields"%string, VList [VStr "neo"]);
   ("data"%string, VList [VList [VStr "Y"]])].

(** An integer epoch, and an integer period, beyond the doubles. *)
Definition huge_epoch_payload : dict :=
  [("fields"%string, VList [VStr "epoch"]);
   ("data"%string, VList [VList [VInt (10 ^ 400)]])].

Definition huge_period_payload : dict :=
  [("fields"%string, VList [VStr "per"]);
   ("data"%string, VList [VList [VInt (10 ^ 400)]])].

(** A row shorter than its field list. *)
Definition short_row_payload : dict :=
  [("fields"%string, VList [VStr "full_name"; VStr "q"]);
   ("data"%string, VList [VList [VStr "1P/Halley"; VStr "0.586"]; VList [VStr "2P/Encke"]])].

(** Fields and no rows; no fields and one row. *)
Definition no_rows_payload : dict :=
  [("fields"%string, VList [VStr "full_name"]); ("data"%string, VList [])].


(** An answer of the service without [data]. *)
Definition message_payload : dict :=
  [("message"%string, VStr "no matching records"); ("count"%string, VInt 0)].

(** A world in which [comets.csv] was written by an earlier run. *)
Definition earlier_world : world :=
  World {[ "comets.csv"%string :=
             [CsvRecord [VStr "full_name"]; CsvRecord [VStr "1P/Halley"]] ]} ∅ [].

(** ** The fetch: [get_comet_data]

    The service is the environment: a function from the request to what
    came back.  [requests.get], [raise_for_status] and [response.json] end
    in a [RequestException], in a [json.JSONDecodeError], or in the decoded
    body, a JSON object as the service documents and the docstring says
    ("Returns: dict").  The lines printed by the fetch are returned beside
    its result. *)

Definition base_url : string := "https://ssd-api.jpl.nasa.gov/sbdb_query.api".

Definition requested_fields : list string :=
  ["full_name"; "pdes"; "name"; "prefix"; "class"; "epoch"; "e"; "a"; "q"; "i";
   "om"; "w"; "tp"; "per"; "moid"; "t_jup"; "H"; "first_obs"; "last_obs";
   "data_arc"; "n_obs_used"]%string.

(** [sep.join(parts)] *)
Fixpoint join (sep : string) (parts : list string) : string :=
  match parts with
  | [] => EmptyString
  | [p] => p
  | p :: rest => (p ++ sep ++ join sep rest)%string
  end.

(** [params[key] = v] on the dictionary of query parameters. *)
Fixpoint param_set (params : list (string * string)) (key v : string)
  : list (string * string) :=
  match params with
  | [] => [(key, v)]
  | (k, w) :: rest =>
      if String.eqb k key then (k, v) :: rest else (k, w) :: param_set rest key v
  end.

Fixpoint param_get (params : list (string * string)) (key : string) : option string :=
  match params with
  | [] => None
  | (k, v) :: rest => if String.eqb k key then Some v else param_get rest key
  end.

Definition build_params (include_fragments numbered_only : bool)
  : list (string * string) :=
  let params := [("sb-kind", "c"); ("fields", join "," requested_fields);
                 ("full-prec", "1")]%string in
  let params := if negb include_fragments then param_set params "sb-xfrag" "1"
                else params in
  if numbered_only then param_set params "sb-ns" "n" else params.

Record request : Type := Request {
  req_url : string;
  req_params : list (string * string);
  req_timeout : Z
}.

Inductive outcome : Type :=
| RequestFailed            (* a [requests.exceptions.RequestException] *)
| DecodeFailed             (* a [json.JSONDecodeError] *)
| Body (d : dict).

Inductive fetch_line : Type :=
| FetchingCometData
| ShowUrl (url : string)
| ShowParameters (params : list (string * string))
| SuccessfullyRetrieved (n : nat)
| WarningNoDataField
| ResponsePreview (d : dict)   (* the first 500 characters of the dump *)
| ErrorFetchingData
| ErrorParsingJSON.

Definition get_comet_data (output_format : string)
    (include_fragments numbered_only : bool) (service : request -> outcome)
  : list fetch_line * result (option dict) :=
  let params := build_params include_fragments numbered_only in
  let printed := [FetchingCometData; ShowUrl base_url; ShowParameters params] in
  match service (Request base_url params 30) with
  | RequestFailed => (printed ++ [ErrorFetchingData], Ok None)
  | DecodeFailed => (printed ++ [ErrorParsingJSON], Ok None)
  | Body d =>
      if dict_has d "data" then
        match rows ← dict_lookup d "data"; py_len rows with
        | Ok n => (printed ++ [SuccessfullyRetrieved n], Ok (Some d))
        | Raise e => (printed, Raise e)
        end
      else (printed ++ [WarningNoDataField; ResponsePreview d], Ok (Some d))
  end.

Definition format_name (f : format) : string :=
  match f with
  | FormatJson => "json"
  | FormatCsv => "csv"
  | FormatKstars => "kstars"
  end.

(** The whole of [main()]: the fetch, then what follows it. *)
Definition main_with_fetch `{StrToFloat} (a : args) (service : request -> outcome)
    (w : world) : list fetch_line * (result Z * world) :=
  let '(printed, fetched) :=
    get_comet_data (format_name (arg_format a)) (arg_include_fragments a)
      (arg_numbered_only a) service in
  match fetched with
  | Ok data => (printed, main a data w)
  | Raise e => (printed, (Raise e, w))
  end.

(** [get_all_comets_csv()]: the result of the writer is not looked at. *)
Definition get_all_comets_csv (service : request -> outcome) (w : world)
  : list fetch_line * (result bool * world) :=
  let '(printed, fetched) := get_comet_data "json" false false service in
  match fetched with
  | Ok data =>
      if truthy (payload_value data) then
        (printed, (_ ← save_as_csv data "comets.csv"; mret true) w)
      else (printed, (Ok false, w))
  | Raise e => (printed, (Raise e, w))
  end.

(** ** More vocabulary *)

(** The file that [main] writes: the base name and the extension of the
    format. *)
Definition output_file (a : args) : string :=
  match arg_format a with
  | FormatCsv => (arg_output a ++ ".csv")%string
  | FormatKstars => (arg_output a ++ ".dat")%string
  | FormatJson => (arg_output a ++ ".json")%string
  end.

(** An action that leaves every file but [filename] as it is, does not
    change what the system refuses, and only adds to the console. *)
Definition confined_to {A : Type} (filename : string) (c : io A) : Prop :=
  forall w r w', c w = (r, w') ->
    refused w' = refused w /\
    (forall other : string, other <> filename -> files w' !! other = files w !! other) /\
    exists printed, console w' = console w ++ printed.

(** The cell of the last column whose field satisfies [P]; [found] when
    there is none.  A column is a field with the cell a row has for it. *)
Fixpoint last_column (P : value -> bool) (columns : list (value * value))
    (found : option value) : option value :=
  match columns with
  | [] => found
  | (f, v) :: rest => last_column P rest (if P f then Some v else found)
  end.

(** A KStars field that holds a number. *)
Definition numeric_field (field : string) : bool :=
  String.eqb field "per.y" || String.eqb field "epoch.mjd".

(** The sample with its columns in another order. *)
Definition halley_payload_reordered : dict :=
  [("fields"%string, VList [VStr "full_name"; VStr "e"; VStr "epoch"; VStr "per"]);
   ("data"%string,
    VList [VList [VStr "1P/Halley"; VStr "0.967"; VStr "2450000.5"; VStr "27740.5"];
           VList [VStr "2P/Encke"; VNone; VStr "51544"; VStr "1204"]])].

(** A service that answers every request with the same outcome. *)
Definition always (o : outcome) : request -> outcome := fun _ => o.

(** * Properties *)

(** ** The built-ins on concrete inputs *)

Example float_of_int_small : float_of_int 27740 = Ok 27740%float.
Proof. reflexivity. Qed.

Example float_of_int_ties_even :
  float_of_int (2 ^ 53 + 1) = Ok 9007199254740992%float /\
  float_of_int (2 ^ 53 + 3) = Ok 9007199254740996%float /\
  float_of_int (- (2 ^ 53 + 3)) = Ok (-9007199254740996)%float.
Proof. repeat split; vm_compute; reflexivity. Qed.

Example float_of_int_largest :
  float_of_int (2 ^ 1024 - 2 ^ 971) = Ok 0x1.fffffffffffffp+1023%float /\
  float_of_int (2 ^ 1024 - 2 ^ 970 - 1) = Ok 0x1.fffffffffffffp+1023%float /\
  float_of_int (2 ^ 1024 - 2 ^ 970) = Raise OverflowError.
Proof. repeat split; vm_compute; reflexivity. Qed.

Example float_of_int_huge : float_of_int (10 ^ 400) = Raise OverflowError.
Proof. vm_compute. reflexivity. Qed.

(** ** Loops that collect results *)

Section MapM.
Context {A B : Type} (f : A -> result B).

Lemma mapM_cons_ok x l y out :
  f x = Ok y -> mapM f l = Ok out -> mapM f (x :: l) = Ok (y :: out).
Proof. intros Hx Hl. cbn. rewrite Hx. cbn. rewrite Hl. reflexivity. Qed.

Lemma mapM_cons_inv x l out :
  mapM f (x :: l) = Ok out ->
  exists y out', out = y :: out' /\ f x = Ok y /\ mapM f l = Ok out'.
Proof.
  cbn. destruct (f x) as [y|e]; cbn; [|discriminate].
  destruct (mapM f l) as [out'|e]; cbn; [|discriminate].
  intros [= <-]. eauto.
Qed.

(** A loop that ends normally has produced one result per element, in
    order. *)
Lemma mapM_ok_Forall2 l out :
  mapM f l = Ok out -> Forall2 (fun x y => f x = Ok y) l out.
Proof.
  revert out. induction l as [|x l IH]; intros out H.
  - cbn in H. injection H as <-. constructor.
  - apply mapM_cons_inv in H as (y & out' & -> & Hy & Hl).
    constructor; auto.
Qed.

Lemma mapM_Forall2_ok l out :
  Forall2 (fun x y => f x = Ok y) l out -> mapM f l = Ok out.
Proof. induction 1; [reflexivity | by apply mapM_cons_ok]. Qed.

(** A loop whose every turn returns ends normally. *)
Lemma mapM_total l :
  Forall (fun x => exists y, f x = Ok y) l -> exists out, mapM f l = Ok out.
Proof.
  induction 1 as [|x l [y Hy] _ [out IH]]; [by exists []|].
  exists (y :: out). by apply mapM_cons_ok.
Qed.

(** A loop with a turn that raises does not end normally. *)
Lemma mapM_raises l x e :
  x ∈ l -> f x = Raise e -> exists e', mapM f l = Raise e'.
Proof.
  intros Hin Hx. induction Hin as [x l|x z l _ IH]; cbn.
  - rewrite Hx. cbn. eauto.
  - destruct (f z) as [y|e1]; cbn; [|eauto].
    destruct (IH Hx) as [e' ->]. cbn. eauto.
Qed.

Lemma mapM_ok_length l out : mapM f l = Ok out -> length out = length l.
Proof.
  intros H. apply mapM_ok_Forall2 in H. symmetry. exact (Forall2_length _ _ _ H).
Qed.

Lemma mapM_ok_lookup l out i x :
  mapM f l = Ok out -> l !! i = Some x ->
  exists y, out !! i = Some y /\ f x = Ok y.
Proof.
  intros H Hi. apply mapM_ok_Forall2 in H.
  destruct (Forall2_lookup_l _ _ _ _ _ H Hi) as (y & ? & ?). eauto.
Qed.
End MapM.

(** ** The field map *)

Lemma is_str_true field name : is_str field name = true -> field = VStr name.
Proof.
  destruct field; cbn; try discriminate.
  intros H. apply String.eqb_eq in H. by subst.
Qed.

Lemma add_field_key_of field_map i field :
  add_field field_map i field =
  match key_of field with Some k => <[k := i]> field_map | None => field_map end.
Proof.
  unfold add_field, key_of, field_pairs. cbn -[is_str].
  repeat (destruct (is_str field _); [reflexivity|]). reflexivity.
Qed.

Lemma add_field_lookup field_map i field (k : string) :
  add_field field_map i field !! k =
  if bool_decide (key_of field = Some k) then Some i else field_map !! k.
Proof.
  rewrite add_field_key_of. destruct (key_of field) as [k'|].
  - rewrite lookup_insert. case_decide; subst.
    + by rewrite bool_decide_eq_true_2.
    + rewrite bool_decide_eq_false_2; [done | congruence].
  - by rewrite bool_decide_eq_false_2.
Qed.

Lemma fill_field_map_lookup fields i field_map (k : string) :
  fill_field_map fields i field_map !! k =
  last_index (fun f => bool_decide (key_of f = Some k)) fields i (field_map !! k).
Proof.
  revert i field_map. induction fields as [|f rest IH]; intros i m; [done|].
  cbn. rewrite IH, add_field_lookup. reflexivity.
Qed.

(** [key_of] in terms of the pairs. *)
Lemma key_of_pair src tgt :
  (src, tgt) ∈ field_pairs -> key_of (VStr src) = Some tgt.
Proof.
  unfold field_pairs. rewrite !elem_of_cons, elem_of_nil.
  intros H. repeat (destruct H as [[= -> ->]|H]; [reflexivity|]). done.
Qed.

Lemma key_of_Some field tgt :
  key_of field = Some tgt -> exists src, field = VStr src /\ (src, tgt) ∈ field_pairs.
Proof.
  unfold key_of, field_pairs. cbn -[is_str].
  repeat match goal with
         | |- context [if is_str field ?name then _ else _] =>
             destruct (is_str field name) eqn:?;
             [cbn; intros [= <-]; eexists; split; [by apply is_str_true|];
              rewrite !elem_of_cons; tauto|]
         end.
  cbn. discriminate.
Qed.

Section LastIndex.
Context (P : value -> bool).

Lemma last_index_none fields i found :
  Forall (fun f => P f = false) fields -> last_index P fields i found = found.
Proof.
  intros H. revert i found. induction H as [|f rest Hf _ IH]; intros i found; [done|].
  cbn. by rewrite Hf, IH.
Qed.

Lemma last_index_last fields i found n f :
  fields !! n = Some f -> P f = true ->
  (forall n' f', (n < n')%nat -> fields !! n' = Some f' -> P f' = false) ->
  last_index P fields i found = Some (i + n)%nat.
Proof.
  revert i found n. induction fields as [|g rest IH]; intros i found n Hn HP Hlast; [done|].
  destruct n as [|n]; cbn in *.
  - injection Hn as ->. rewrite HP, last_index_none; [f_equal; lia|].
    apply Forall_lookup. intros n' f' Hf'. apply (Hlast (S n') f'); [lia | done].
  - rewrite (IH (S i) _ n); [f_equal; lia | done | done |].
    intros n' f' Hlt Hf'. apply (Hlast (S n') f'); [lia | done].
Qed.

Lemma last_index_bound fields i found j :
  last_index P fields i found = Some j ->
  found = Some j \/ (i <= j < i + length fields)%nat.
Proof.
  revert i found. induction fields as [|g rest IH]; intros i found H; cbn in *; [auto|].
  apply IH in H as [H|H]; [|right; lia].
  destruct (P g); [injection H as <-; right; lia | auto].
Qed.
End LastIndex.

Lemma field_map_bound fields (k : string) j :
  fill_field_map fields 0 ∅ !! k = Some j -> (j < length fields)%nat.
Proof.
  rewrite fill_field_map_lookup. intros H.
  apply last_index_bound in H as [H|H]; [by rewrite lookup_empty in H | lia].
Qed.

(** ** The conversion of one value, one cell, one row *)

Section Conversion.
Context {parser : StrToFloat}.

Lemma py_float_raise v e :
  in_float_range v = true -> py_float v = Raise e -> only_value_or_type e = true.
Proof.
  destruct v as [| b | z | f | s | items | entries]; cbn; try discriminate;
    try (intros _ [= <-]; reflexivity).
  - destruct (float_of_int z); [discriminate | intros [=]].
  - destruct (float_of_str s); [discriminate | intros _ [= <-]; reflexivity].
Qed.

Lemma convert_value_other field v :
  field <> "per.y"%string -> field <> "epoch.mjd"%string ->
  convert_value field v = Ok v.
Proof.
  intros H1 H2. unfold convert_value.
  apply String.eqb_neq in H1, H2. by rewrite H1, H2.
Qed.

Lemma convert_value_none field : convert_value field VNone = Ok VNone.
Proof.
  unfold convert_value. cbn. by rewrite !andb_false_r.
Qed.

Lemma is_none_false v : v <> VNone -> is_none v = false.
Proof. by destruct v. Qed.

(** The period: days to years. *)
Lemma convert_value_per v x :
  v <> VNone -> py_float v = Ok x ->
  convert_value "per.y" v = Ok (VFloat (x / 365.25)).
Proof.
  intros Hv Hx. unfold convert_value. cbn -[py_float is_none].
  by rewrite (is_none_false _ Hv), Hx.
Qed.

Lemma convert_value_per_rejected v e :
  py_float v = Raise e -> only_value_or_type e = true ->
  convert_value "per.y" v = Ok VNone.
Proof.
  intros Hx He. unfold convert_value. cbn -[py_float is_none].
  destruct (is_none v) eqn:Hn; cbn -[py_float]; [|rewrite Hx; cbn; by rewrite He].
  destruct v; try discriminate; reflexivity.
Qed.

(** The epoch: a Julian date becomes a modified Julian date. *)
Lemma convert_value_epoch_jd v x :
  v <> VNone -> py_float v = Ok x -> (2400000 <? x)%float = true ->
  convert_value "epoch.mjd" v = Ok (VFloat (x - 2400000.5)).
Proof.
  intros Hv Hx Hgt. unfold convert_value. cbn -[py_float is_none].
  rewrite (is_none_false _ Hv), Hx. cbn. by rewrite Hgt.
Qed.

Lemma convert_value_epoch_mjd v x :
  v <> VNone -> py_float v = Ok x -> (2400000 <? x)%float = false ->
  convert_value "epoch.mjd" v = Ok (VFloat x).
Proof.
  intros Hv Hx Hgt. unfold convert_value. cbn -[py_float is_none].
  rewrite (is_none_false _ Hv), Hx. cbn. by rewrite Hgt.
Qed.

Lemma convert_value_epoch_rejected v e :
  py_float v = Raise e -> only_value_or_type e = true ->
  convert_value "epoch.mjd" v = Ok VNone.
Proof.
  intros Hx He. unfold convert_value. cbn -[py_float is_none].
  destruct (is_none v) eqn:Hn; cbn -[py_float]; [|rewrite Hx; cbn; by rewrite He].
  destruct v; try discriminate; reflexivity.
Qed.

(** A value in range is converted without an exception. *)
Lemma convert_value_total field v :
  in_float_range v = true -> exists v', convert_value field v = Ok v'.
Proof.
  intros Hv. unfold convert_value.
  destruct (_ && _).
  { destruct (py_float v) as [x|e] eqn:Hx; cbn; [eauto|].
    rewrite (py_float_raise _ _ Hv Hx). eauto. }
  destruct (_ && _); [|eauto].
  destruct (py_float v) as [x|e] eqn:Hx; cbn.
  - destruct (_ <? _)%float; eauto.
  - rewrite (py_float_raise _ _ Hv Hx). eauto.
Qed.

Lemma convert_row_length field_map row out :
  convert_row field_map row = Ok out ->
  exists cells, out = VList cells /\ length cells = 21%nat.
Proof.
  unfold convert_row.
  destruct (mapM _ kstars_fields) as [cells|e] eqn:H; cbn; [|discriminate].
  intros [= <-]. exists cells. split; [done|].
  by apply mapM_ok_length in H.
Qed.

Lemma convert_row_cell field_map row cells k field :
  convert_row field_map row = Ok (VList cells) ->
  kstars_fields !! k = Some field ->
  exists c, cells !! k = Some c /\ convert_cell field_map row field = Ok c.
Proof.
  unfold convert_row.
  destruct (mapM _ kstars_fields) as [cells'|e] eqn:H; cbn; [|discriminate].
  intros [= <-] Hk. by eapply mapM_ok_lookup.
Qed.

(** A row that covers the fields is converted without an exception. *)
Lemma convert_row_total fields row :
  row_covers (length fields) row = true ->
  exists cells, convert_row (fill_field_map fields 0 ∅) row = Ok (VList cells).
Proof.
  destruct row as [| | | | | cells |]; try discriminate. cbn [row_covers].
  intros [Hlen Hrange]%andb_true_iff.
  apply Nat.leb_le in Hlen. rewrite forallb_forall in Hrange.
  unfold convert_row.
  destruct (mapM_total (convert_cell (fill_field_map fields 0 ∅) (VList cells))
              kstars_fields) as [out Hout]; [|rewrite Hout; cbn; eauto].
  apply Forall_forall. intros field _. unfold convert_cell.
  destruct (_ !! field) as [j|] eqn:Hj; [|eauto].
  apply field_map_bound in Hj.
  destruct (lookup_lt_is_Some_2 cells j) as [v Hv]; [lia|].
  cbn. rewrite Hv. cbn. apply convert_value_total, Hrange.
  apply list_elem_of_In. by eapply list_elem_of_lookup_2.
Qed.

(** The function on a payload that has both keys. *)
Lemma dict_get_truthy (d : dict) key v : dict_get d key = Some v -> truthy (VDict d) = true.
Proof. by destruct d. Qed.

Lemma payload_present (d : dict) fields rows :
  dict_get d "fields" = Some fields -> dict_get d "data" = Some rows ->
  payload_missing (Some d) = false.
Proof.
  intros Hf Hd. unfold payload_missing, dict_has.
  by rewrite (dict_get_truthy _ _ _ Hf), Hf, Hd.
Qed.

Lemma convert_unfold_iter (d : dict) jpl_fields data_rows fields rows :
  dict_get d "fields" = Some jpl_fields -> py_iter jpl_fields = Ok fields ->
  dict_get d "data" = Some data_rows -> py_iter data_rows = Ok rows ->
  convert_to_kstars_format (Some d) =
  (kstars_data ← mapM (convert_row (fill_field_map fields 0 ∅)) rows;
   Ok (kstars_table kstars_data)).
Proof.
  intros Hf Hfi Hd Hdi. unfold convert_to_kstars_format, dict_lookup.
  rewrite (payload_present _ _ _ Hf Hd), Hf, Hd. cbn. rewrite Hfi. cbn.
  rewrite Hdi. reflexivity.
Qed.

Lemma convert_unfold (d : dict) fields rows :
  dict_get d "fields" = Some (VList fields) ->
  dict_get d "data" = Some (VList rows) ->
  convert_to_kstars_format (Some d) =
  (kstars_data ← mapM (convert_row (fill_field_map fields 0 ∅)) rows;
   Ok (kstars_table kstars_data)).
Proof. intros Hf Hd. by apply (convert_unfold_iter d (VList fields) (VList rows)). Qed.

Lemma convert_without_keys (d : dict) :
  payload_missing (Some d) = true -> convert_to_kstars_format (Some d) = Ok VNone.
Proof. intros H. unfold convert_to_kstars_format. by rewrite H. Qed.

(** On a table the conversion returns, with one converted row per row. *)
Lemma convert_table (d : dict) fields rows :
  dict_get d "fields" = Some (VList fields) ->
  dict_get d "data" = Some (VList rows) ->
  Forall (fun row => row_covers (length fields) row = true) rows ->
  exists out,
    convert_to_kstars_format (Some d) = Ok (kstars_table out) /\
    Forall2 (fun row orow => convert_row (fill_field_map fields 0 ∅) row = Ok orow)
      rows out.
Proof.
  intros Hf Hd Hrows. rewrite (convert_unfold _ _ _ Hf Hd).
  destruct (mapM_total (convert_row (fill_field_map fields 0 ∅)) rows) as [out Hout].
  { eapply Forall_impl; [exact Hrows|]. intros row Hrow.
    destruct (convert_row_total _ _ Hrow) as [cells ->]. eauto. }
  exists out. rewrite Hout. split; [reflexivity|]. by apply mapM_ok_Forall2.
Qed.
End Conversion.

(** ** Files *)

Lemma open_w_ok filename w :
  filename ∉ refused w ->
  open_w filename w = (Ok tt, World (<[filename := []]> (files w)) (refused w) (console w)).
Proof. intros H. unfold open_w. by rewrite decide_False. Qed.

Lemma open_w_refused filename w :
  filename ∈ refused w -> open_w filename w = (Raise OSError, w).
Proof. intros H. unfold open_w. by rewrite decide_True. Qed.

(** What a file holds after it was opened and [es] was written to it. *)
Lemma write_after_open filename es fs rs out :
  write filename es (World (<[filename := []]> fs) rs out) =
  (Ok tt, World (<[filename := es]> fs) rs out).
Proof.
  unfold write. cbn. by rewrite lookup_insert_eq, insert_insert_eq.
Qed.

Lemma write_append filename es1 es2 fs rs out :
  write filename es2 (World (<[filename := es1]> fs) rs out) =
  (Ok tt, World (<[filename := es1 ++ es2]> fs) rs out).
Proof.
  unfold write. cbn. by rewrite lookup_insert_eq, insert_insert_eq.
Qed.

(** ** Compact JSON *)




(** [indent=2] does lay the text out: the passthrough writer is not compact. *)
Example indent2_not_tight :
  forallb tight (json_tokens indent2 0 (VList [VNone])) = false.
Proof. reflexivity. Qed.

(** ** The writers, path by path *)


Lemma save_as_csv_missing data filename w :
  payload_missing data = true ->
  save_as_csv data filename w =
  (Ok false, World (files w) (refused w) (console w ++ [NoDataToSave])).
Proof.
  intros H. unfold save_as_csv. destruct data as [d|]; [rewrite H|]; reflexivity.
Qed.



Lemma save_as_csv_refused (d : dict) filename w :
  payload_missing (Some d) = false -> filename ∈ refused w ->
  save_as_csv (Some d) filename w =
  (Ok false, World (files w) (refused w) (console w ++ [ErrorSavingCSV OSError])).
Proof.
  intros Hd Hfile. unfold save_as_csv. rewrite Hd.
  unfold try_io, mbind, io_bind. by rewrite (open_w_refused _ _ Hfile).
Qed.

Lemma save_as_json_nothing data filename w :
  truthy (payload_value data) = false ->
  save_as_json data filename w =
  (Ok false, World (files w) (refused w) (console w ++ [NoDataToSave])).
Proof. intros H. unfold save_as_json. by rewrite H. Qed.

Lemma save_as_json_written data filename w :
  truthy (payload_value data) = true -> filename ∉ refused w ->
  save_as_json data filename w =
  (Ok true,
   World (<[filename := JsonChunk <$> json_tokens indent2 0 (payload_value data)]> (files w))
         (refused w) (console w ++ [DataSavedTo filename])).
Proof.
  intros H Hfile. unfold save_as_json. rewrite H. cbn [negb].
  unfold try_io, mbind, io_bind. rewrite (open_w_ok _ _ Hfile).
  unfold json_dump. rewrite write_after_open. reflexivity.
Qed.

Section Kstars.
Context {parser : StrToFloat}.

Lemma save_as_kstars_nothing data filename w :
  truthy (payload_value data) = false ->
  save_as_kstars data filename w =
  (Ok false, World (files w) (refused w) (console w ++ [NoDataToSave])).
Proof. intros H. unfold save_as_kstars. by rewrite H. Qed.

(** The conversion raised: the file was not opened yet. *)
Lemma save_as_kstars_raised data filename w e :
  truthy (payload_value data) = true ->
  convert_to_kstars_format data = Raise e ->
  save_as_kstars data filename w =
  (Ok false, World (files w) (refused w) (console w ++ [ErrorSavingKStars e])).
Proof.
  intros H He. unfold save_as_kstars. rewrite H. cbn [negb].
  unfold try_io, mbind, io_bind, lift. by rewrite He.
Qed.

(** The conversion refused: the file was not opened either. *)
Lemma save_as_kstars_refusal data filename w v :
  truthy (payload_value data) = true ->
  convert_to_kstars_format data = Ok v -> truthy v = false ->
  save_as_kstars data filename w =
  (Ok false, World (files w) (refused w) (console w ++ [ErrorConvertingToKStars])).
Proof.
  intros H Hv Hfalse. unfold save_as_kstars. rewrite H. cbn [negb].
  unfold try_io, mbind, io_bind, lift. by rewrite Hv, Hfalse.
Qed.

Lemma save_as_kstars_written data filename w v :
  truthy (payload_value data) = true ->
  convert_to_kstars_format data = Ok v -> truthy v = true ->
  filename ∉ refused w ->
  save_as_kstars data filename w =
  (Ok true,
   World (<[filename := JsonChunk <$> json_tokens compact 0 v]> (files w)) (refused w)
         (console w ++ [DataSavedInKStarsFormat filename; CompatibleWithKStars])).
Proof.
  intros H Hv Htrue Hfile. unfold save_as_kstars. rewrite H. cbn [negb].
  unfold try_io, mbind, io_bind, lift. rewrite Hv, Htrue. cbn [negb].
  rewrite (open_w_ok _ _ Hfile). unfold json_dump. rewrite write_after_open.
  unfold print. cbn. by rewrite <- app_assoc.
Qed.

End Kstars.

(** ** The keys of the field map *)

Lemma last_index_source P fields i found j :
  last_index P fields i found = Some j ->
  found = Some j \/ exists f, f ∈ fields /\ P f = true.
Proof.
  revert i found. induction fields as [|g rest IH]; intros i found H; cbn in *; [auto|].
  apply IH in H as [H|(f & Hin & Hf)].
  - destruct (P g) eqn:Hg; [|auto]. right. exists g. split; [constructor | done].
  - right. exists f. split; [by constructor | done].
Qed.

Lemma field_pairs_target src tgt : (src, tgt) ∈ field_pairs -> tgt ∈ kstars_fields.
Proof.
  unfold field_pairs, kstars_fields. rewrite !elem_of_cons, elem_of_nil.
  intros H. repeat (destruct H as [[= -> ->]|H]; [tauto|]). done.
Qed.

Lemma field_pairs_source src1 src2 tgt :
  (src1, tgt) ∈ field_pairs -> (src2, tgt) ∈ field_pairs -> src1 = src2.
Proof.
  unfold field_pairs. rewrite !elem_of_cons, !elem_of_nil.
  intros H1 H2.
  repeat (destruct H1 as [[= -> ->]|H1];
          [repeat (destruct H2 as [H2|H2]; [by simplify_eq|]); done|]).
  done.
Qed.

(** Every key of the field map is a KStars field. *)
Lemma field_map_key fields (k : string) j :
  fill_field_map fields 0 ∅ !! k = Some j -> k ∈ kstars_fields.
Proof.
  rewrite fill_field_map_lookup. intros H.
  apply last_index_source in H as [H|(f & _ & Hf)]; [by rewrite lookup_empty in H|].
  apply bool_decide_eq_true in Hf. apply key_of_Some in Hf as (src & _ & Hpair).
  by eapply field_pairs_target.
Qed.

(** The column of a source field that occurs: its last occurrence. *)
Lemma field_map_source fields src tgt j :
  (src, tgt) ∈ field_pairs -> fields !! j = Some (VStr src) ->
  (forall j', (j < j')%nat -> fields !! j' <> Some (VStr src)) ->
  fill_field_map fields 0 ∅ !! tgt = Some j.
Proof.
  intros Hpair Hj Hlast. rewrite fill_field_map_lookup.
  rewrite (last_index_last _ fields 0 _ j (VStr src)); [done | done | |].
  - apply bool_decide_eq_true. by apply key_of_pair.
  - intros j' f' Hlt Hf'. apply bool_decide_eq_false. intros Hkey.
    apply key_of_Some in Hkey as (src' & -> & Hpair').
    rewrite (field_pairs_source _ _ _ Hpair' Hpair) in Hf'. by apply (Hlast j').
Qed.

(** No key for a KStars field without a source field in the payload. *)
Lemma field_map_no_source fields tgt :
  (forall src, (src, tgt) ∈ field_pairs -> VStr src ∉ fields) ->
  fill_field_map fields 0 ∅ !! tgt = None.
Proof.
  intros Hnone. rewrite fill_field_map_lookup, last_index_none; [apply lookup_empty|].
  apply Forall_forall. intros f Hf. apply bool_decide_eq_false. intros Hkey.
  apply key_of_Some in Hkey as (src & -> & Hpair).
  exact (Hnone src Hpair Hf).
Qed.

(** * The claims *)

(** C1, as stated, fails: the payload has a [fields] list and a [data] list
    of rows, and no table is returned.  The second row has one cell for two
    fields and the lookup of its [q] raises [IndexError]; nothing in the
    function checks the length of a row. *)
Lemma short_row_no_table :
  dict_get short_row_payload "fields" = Some (VList [VStr "full_name"; VStr "q"]) /\
  dict_get short_row_payload "data" =
    Some (VList [VList [VStr "1P/Halley"; VStr "0.586"]; VList [VStr "2P/Encke"]]) /\
  convert_to_kstars_format (H := plain_decimal) (Some short_row_payload) = Raise IndexError.
Proof. repeat split. Qed.

(** C1, amended.  For a payload whose [fields] is a list and whose [data]
    is a list of rows, each row a list with a cell for every field (whose
    integers [float()] takes), [convert_to_kstars_format] returns a table:
    its field list is the 21 KStars names in their fixed order, whatever
    the source fields and their order are; it has one row per source row,
    the i-th being the conversion of the i-th source row; and every row
    has 21 cells. *)
Theorem convert_to_kstars_format_schema {parser : StrToFloat}
    (d : dict) (fields rows : list value) :
  dict_get d "fields" = Some (VList fields) ->
  dict_get d "data" = Some (VList rows) ->
  Forall (fun row => row_covers (length fields) row = true) rows ->
  exists table out,
    convert_to_kstars_format (Some d) = Ok (VDict table) /\
    dict_get table "fields" =
      Some (VList (VStr <$>
        ["full_name"; "epoch.mjd"; "q"; "e"; "i"; "w"; "om"; "tp"; "orbit_id";
         "neo"; "M1"; "M2"; "diameter"; "extent"; "albedo"; "rot_per"; "per.y";
         "moid"; "H"; "G"; "class"]%string)) /\
    dict_get table "data" = Some (VList out) /\
    length out = length rows /\
    forall i row, rows !! i = Some row ->
      exists cells,
        out !! i = Some (VList cells) /\ length cells = 21%nat /\
        convert_row (fill_field_map fields 0 ∅) row = Ok (VList cells).
Proof.
  intros Hf Hd Hrows.
  destruct (convert_table d fields rows Hf Hd Hrows) as (out & Hout & Hall).
  eexists _, out. split; [exact Hout|].
  split; [reflexivity|]. split; [reflexivity|].
  split; [symmetry; exact (Forall2_length _ _ _ Hall)|].
  intros i row Hi.
  destruct (Forall2_lookup_l _ _ _ _ _ Hall Hi) as (orow & Ho & Hrow).
  destruct (convert_row_length _ _ _ Hrow) as (cells & -> & Hlen).
  exists cells. auto.
Qed.

Lemma convert_to_kstars_format_schema_witness :
  exists table out,
    convert_to_kstars_format (H := plain_decimal) (Some halley_payload) = Ok (VDict table) /\
    dict_get table "fields" =
      Some (VList (VStr <$>
        ["full_name"; "epoch.mjd"; "q"; "e"; "i"; "w"; "om"; "tp"; "orbit_id";
         "neo"; "M1"; "M2"; "diameter"; "extent"; "albedo"; "rot_per"; "per.y";
         "moid"; "H"; "G"; "class"]%string)) /\
    dict_get table "data" = Some (VList out) /\
    length out = 2%nat /\
    forall i row,
      [VList [VStr "27740.5"; VStr "1P/Halley"; VStr "2450000.5"; VStr "0.967"];
       VList [VStr "1204"; VStr "2P/Encke"; VStr "51544"; VNone]] !! i = Some row ->
      exists cells,
        out !! i = Some (VList cells) /\ length cells = 21%nat /\
        convert_row (H := plain_decimal)
          (fill_field_map [VStr "per"; VStr "full_name"; VStr "epoch"; VStr "e"] 0 ∅) row
        = Ok (VList cells).
Proof.
  apply (convert_to_kstars_format_schema (parser := plain_decimal) halley_payload
           [VStr "per"; VStr "full_name"; VStr "epoch"; VStr "e"]
           [VList [VStr "27740.5"; VStr "1P/Halley"; VStr "2450000.5"; VStr "0.967"];
            VList [VStr "1204"; VStr "2P/Encke"; VStr "51544"; VNone]]).
  - reflexivity.
  - reflexivity.
  - repeat constructor.
Defined.

(** The converted table of the sample, computed. *)
Example halley_converted :
  convert_to_kstars_format (H := plain_decimal) (Some halley_payload) =
  Ok (kstars_table
        [VList [VStr "1P/Halley"; VFloat 50000; VNone; VStr "0.967"; VNone; VNone; VNone;
                VNone; VNone; VNone; VNone; VNone; VNone; VNone; VNone; VNone;
                VFloat (27740.5 / 365.25); VNone; VNone; VNone; VNone];
         VList [VStr "2P/Encke"; VFloat 51544; VNone; VNone; VNone; VNone; VNone;
                VNone; VNone; VNone; VNone; VNone; VNone; VNone; VNone; VNone;
                VFloat (1204 / 365.25); VNone; VNone; VNone; VNone]]).
Proof. vm_compute. reflexivity. Qed.



(** The file of the sample in KStars format: the start of the dump. *)
Example halley_kstars_dump :
  take 8 (json_tokens compact 0 (kstars_table [])) =
  [Punct "{"; TStr "signature"; Punct ":";
   TStr "KStars comet data converted from JPL SBDB API"; Punct ","; TStr "fields";
   Punct ":"; Punct "["].
Proof. reflexivity. Qed.

(** C10.  For a payload with [fields] and [data] in which the lookup of a
    column of the field map is out of range in some row, the conversion
    raises, [save_as_kstars] catches the exception and returns [False],
    and the files are as they were: none is created, none is truncated,
    because the file is opened only after the conversion. *)
Theorem save_as_kstars_short_row {parser : StrToFloat}
    (d : dict) (jpl_fields data_rows row : value) (fields rows : list value)
    (target : string) (j : nat) (filename : string) (w : world) :
  dict_get d "fields" = Some jpl_fields -> py_iter jpl_fields = Ok fields ->
  dict_get d "data" = Some data_rows -> py_iter data_rows = Ok rows ->
  row ∈ rows ->
  fill_field_map fields 0 ∅ !! target = Some j ->
  py_getitem row j = Raise IndexError ->
  exists e,
    convert_to_kstars_format (Some d) = Raise e /\
    save_as_kstars (Some d) filename w =
      (Ok false, World (files w) (refused w) (console w ++ [ErrorSavingKStars e])).
Proof.
  intros Hf Hfi Hd Hdi Hrow Hj Hshort.
  assert (exists e, convert_to_kstars_format (Some d) = Raise e) as [e He].
  { rewrite (convert_unfold_iter _ _ _ _ _ Hf Hfi Hd Hdi).
    assert (exists e, convert_row (fill_field_map fields 0 ∅) row = Raise e)
      as [e1 He1].
    { unfold convert_row.
      destruct (mapM_raises (convert_cell (fill_field_map fields 0 ∅) row)
                  kstars_fields target IndexError) as [e1 ->]; [| |cbn; eauto].
      - by eapply field_map_key.
      - unfold convert_cell. rewrite Hj, Hshort. reflexivity. }
    destruct (mapM_raises _ rows _ e1 Hrow He1) as [e ->]. cbn. eauto. }
  exists e. split; [exact He|].
  apply save_as_kstars_raised; [|exact He].
  exact (dict_get_truthy _ _ _ Hf).
Qed.

Lemma save_as_kstars_short_row_witness :
  exists e,
    convert_to_kstars_format (H := plain_decimal) (Some short_row_payload) = Raise e /\
    save_as_kstars (H := plain_decimal) (Some short_row_payload) "comets.csv" earlier_world =
      (Ok false,
       World (files earlier_world) (refused earlier_world)
             (console earlier_world ++ [ErrorSavingKStars e])).
Proof.
  apply (save_as_kstars_short_row (parser := plain_decimal) short_row_payload
           (VList [VStr "full_name"; VStr "q"])
           (VList [VList [VStr "1P/Halley"; VStr "0.586"]; VList [VStr "2P/Encke"]])
           (VList [VStr "2P/Encke"])
           [VStr "full_name"; VStr "q"]
           [VList [VStr "1P/Halley"; VStr "0.586"]; VList [VStr "2P/Encke"]]
           "q" 1 "comets.csv" earlier_world).
  - reflexivity.
  - reflexivity.
  - reflexivity.
  - reflexivity.
  - apply list_elem_of_further, list_elem_of_here.
  - vm_compute. reflexivity.
  - reflexivity.
Defined.

(** The earlier file of the sample world is as it was after the failure. *)
Example short_row_keeps_file :
  files (snd (save_as_kstars (H := plain_decimal) (Some short_row_payload) "comets.csv"
                earlier_world)) !! "comets.csv"%string =
  Some [CsvRecord [VStr "full_name"]; CsvRecord [VStr "1P/Halley"]].
Proof. vm_compute. reflexivity. Qed.

(** C2, as stated, fails: the payload has a source field named [neo], as
    the KStars field in position 9 is, with the value ["Y"] in its only
    row, and the output row holds [None] there.  The chain names twelve
    source fields and [neo] is not one of them. *)
Lemma same_named_field_not_read :
  dict_get neo_payload "fields" = Some (VList [VStr "neo"]) /\
  dict_get neo_payload "data" = Some (VList [VList [VStr "Y"]]) /\
  kstars_fields !! 9%nat = Some "neo"%string /\
  exists cells,
    convert_to_kstars_format (H := plain_decimal) (Some neo_payload) =
      Ok (kstars_table [VList cells]) /\
    cells !! 9%nat = Some VNone.
Proof.
  repeat split. eexists. split; [vm_compute; reflexivity | reflexivity].
Qed.

(** C2, amended.  On a table (as in C1), for each of the twelve pairs of
    the chain (full_name, epoch→epoch.mjd, q, e, i, w, om, tp, moid, H,
    class, per→per.y): if the source field occurs in the field list, the
    cell of the KStars field in every output row is the conversion of the
    cell that the row has in the column of the last occurrence of the
    source field, and that conversion changes nothing unless the field is
    [per.y] or [epoch.mjd].  A KStars field whose source field does not
    occur, and each of the nine KStars fields outside the pairs, is [None]
    in every output row. *)
Theorem convert_reads_mapped_columns {parser : StrToFloat}
    (d : dict) (fields rows : list value) :
  dict_get d "fields" = Some (VList fields) ->
  dict_get d "data" = Some (VList rows) ->
  Forall (fun row => row_covers (length fields) row = true) rows ->
  exists out,
    convert_to_kstars_format (Some d) = Ok (kstars_table out) /\
    forall i cells, rows !! i = Some (VList cells) ->
      exists orow,
        out !! i = Some (VList orow) /\
        (forall src tgt j k,
            (src, tgt) ∈ field_pairs -> kstars_fields !! k = Some tgt ->
            fields !! j = Some (VStr src) ->
            (forall j', (j < j')%nat -> fields !! j' <> Some (VStr src)) ->
            exists v c,
              cells !! j = Some v /\ orow !! k = Some c /\
              convert_value tgt v = Ok c /\
              (tgt <> "per.y"%string -> tgt <> "epoch.mjd"%string -> c = v)) /\
        (forall tgt k,
            kstars_fields !! k = Some tgt ->
            (forall src, (src, tgt) ∈ field_pairs -> VStr src ∉ fields) ->
            orow !! k = Some VNone).
Proof.
  intros Hf Hd Hrows.
  destruct (convert_table d fields rows Hf Hd Hrows) as (out & Hout & Hall).
  exists out. split; [exact Hout|]. intros i cells Hi.
  destruct (Forall2_lookup_l _ _ _ _ _ Hall Hi) as (orow' & Ho & Hrow).
  destruct (convert_row_length _ _ _ Hrow) as (orow & -> & Hlen).
  exists orow. split; [exact Ho|]. split.
  - intros src tgt j k Hpair Hk Hj Hlast.
    destruct (convert_row_cell _ _ _ _ _ Hrow Hk) as (c & Hc & Hcell).
    unfold convert_cell in Hcell.
    rewrite (field_map_source _ _ _ _ Hpair Hj Hlast) in Hcell. cbn in Hcell.
    destruct (cells !! j) as [v|] eqn:Hv; cbn in Hcell; [|discriminate].
    exists v, c. repeat split; try done.
    intros H1 H2. rewrite (convert_value_other _ _ H1 H2) in Hcell. congruence.
  - intros tgt k Hk Hnone.
    destruct (convert_row_cell _ _ _ _ _ Hrow Hk) as (c & Hc & Hcell).
    unfold convert_cell in Hcell. rewrite (field_map_no_source _ _ Hnone) in Hcell.
    congruence.
Qed.

Lemma convert_reads_mapped_columns_witness :
  exists out,
    convert_to_kstars_format (H := plain_decimal) (Some halley_payload) =
      Ok (kstars_table out) /\
    forall i cells,
      [VList [VStr "27740.5"; VStr "1P/Halley"; VStr "2450000.5"; VStr "0.967"];
       VList [VStr "1204"; VStr "2P/Encke"; VStr "51544"; VNone]] !! i
      = Some (VList cells) ->
      exists orow,
        out !! i = Some (VList orow) /\
        (forall src tgt j k,
            (src, tgt) ∈ field_pairs -> kstars_fields !! k = Some tgt ->
            [VStr "per"; VStr "full_name"; VStr "epoch"; VStr "e"] !! j = Some (VStr src) ->
            (forall j', (j < j')%nat ->
                [VStr "per"; VStr "full_name"; VStr "epoch"; VStr "e"] !! j'
                <> Some (VStr src)) ->
            exists v c,
              cells !! j = Some v /\ orow !! k = Some c /\
              convert_value (H := plain_decimal) tgt v = Ok c /\
              (tgt <> "per.y"%string -> tgt <> "epoch.mjd"%string -> c = v)) /\
        (forall tgt k,
            kstars_fields !! k = Some tgt ->
            (forall src, (src, tgt) ∈ field_pairs ->
               VStr src ∉ [VStr "per"; VStr "full_name"; VStr "epoch"; VStr "e"]) ->
            orow !! k = Some VNone).
Proof.
  apply (convert_reads_mapped_columns (parser := plain_decimal) halley_payload
           [VStr "per"; VStr "full_name"; VStr "epoch"; VStr "e"]
           [VList [VStr "27740.5"; VStr "1P/Halley"; VStr "2450000.5"; VStr "0.967"];
            VList [VStr "1204"; VStr "2P/Encke"; VStr "51544"; VNone]]).
  - reflexivity.
  - reflexivity.
  - repeat constructor.
Defined.

(** ** Dictionaries *)

Lemma dict_get_set (d : dict) key v : dict_get (dict_set d key v) key = Some v.
Proof.
  induction d as [|[k x] d IH]; cbn.
  - by rewrite String.eqb_refl.
  - destruct (String.eqb k key) eqn:Hk; cbn; by rewrite Hk.
Qed.

Lemma dict_get_set_other (d : dict) key key' v :
  key <> key' -> dict_get (dict_set d key v) key' = dict_get d key'.
Proof.
  intros Hne. induction d as [|[k x] d IH]; cbn.
  - apply String.eqb_neq in Hne. by rewrite Hne.
  - destruct (String.eqb k key) eqn:Hk; cbn; [|by rewrite IH].
    apply String.eqb_eq in Hk. subst k.
    apply String.eqb_neq in Hne. by rewrite Hne.
Qed.

Lemma dict_set_same (d : dict) key v : dict_get d key = Some v -> dict_set d key v = d.
Proof.
  induction d as [|[k x] d IH]; cbn; [discriminate|].
  destruct (String.eqb k key); [by intros [= ->] | intros H; by rewrite IH].
Qed.

(** C5, as stated, fails at [--limit 0]: the payload has two rows, 0 is
    less than 2, and the payload handed to the writer is the whole
    payload, not its first 0 rows.  [if args.limit] does not tell 0 from
    an absent option. *)
Lemma limit_zero_keeps_every_row :
  dict_get halley_payload "data" =
    Some (VList [VList [VStr "27740.5"; VStr "1P/Halley"; VStr "2450000.5"; VStr "0.967"];
                 VList [VStr "1204"; VStr "2P/Encke"; VStr "51544"; VNone]]) /\
  apply_limit (Args FormatCsv "comets" false false (Some 0)) halley_payload empty_world =
    (Ok halley_payload, empty_world) /\
  main (H := plain_decimal) (Args FormatCsv "comets" false false (Some 0))
    (Some halley_payload) empty_world =
    ('(success, filename) ←
        save (H := plain_decimal) (Args FormatCsv "comets" false false (Some 0))
          halley_payload;
     report (Args FormatCsv "comets" false false (Some 0)) halley_payload success filename)
      empty_world /\
  take 0 [VList [VStr "27740.5"; VStr "1P/Halley"; VStr "2450000.5"; VStr "0.967"];
          VList [VStr "1204"; VStr "2P/Encke"; VStr "51544"; VNone]] = [].
Proof. repeat split. Qed.

(** C5, amended.  For every positive [N] given as [--limit] and every
    payload whose [data] is a list of [M] rows, the payload handed to the
    writer is the fetched one with [data] replaced by the first [N] rows,
    in order, every other key as it was: exactly [N] rows if [N < M], and
    the payload unchanged, with all [M] rows, if [N >= M]. *)
Theorem limit_keeps_first_rows {parser : StrToFloat}
    (a : args) (d : dict) (rows : list value) (n : Z) (w : world) :
  arg_limit a = Some n -> 0 < n ->
  dict_get d "data" = Some (VList rows) ->
  exists d',
    apply_limit a d w =
      (Ok d', World (files w) (refused w) (console w ++ [LimitedResults n])) /\
    main a (Some d) w =
      ('(success, filename) ← save a d'; report a d' success filename)
        (World (files w) (refused w) (console w ++ [LimitedResults n])) /\
    dict_get d' "data" = Some (VList (take (Z.to_nat n) rows)) /\
    (forall key, key <> "data"%string -> dict_get d' key = dict_get d key) /\
    (n < Z.of_nat (length rows) -> length (take (Z.to_nat n) rows) = Z.to_nat n) /\
    (Z.of_nat (length rows) <= n -> take (Z.to_nat n) rows = rows /\ d' = d).
Proof.
  intros Hn Hpos Hd.
  exists (dict_set d "data" (VList (take (Z.to_nat n) rows))).
  assert (apply_limit a d w =
          (Ok (dict_set d "data" (VList (take (Z.to_nat n) rows))),
           World (files w) (refused w) (console w ++ [LimitedResults n]))) as Happly.
  { unfold apply_limit, limit_given, dict_has. rewrite Hn, Hd.
    replace (n =? 0) with false by (symmetry; apply Z.eqb_neq; lia).
    cbn [negb andb default from_option id]. unfold mbind, io_bind, lift, dict_lookup.
    rewrite Hd. cbn [py_slice_to]. unfold slice_to.
    replace (0 <=? n) with true by (symmetry; apply Z.leb_le; lia).
    reflexivity. }
  split; [exact Happly|]. split.
  { unfold main. cbn [payload_value default from_option id].
    rewrite (dict_get_truthy _ _ _ Hd). cbn [negb].
    unfold mbind at 1, io_bind at 1. rewrite Happly. reflexivity. }
  split; [apply dict_get_set|].
  split; [intros key Hkey; by apply dict_get_set_other|].
  split.
  - intros Hlt. rewrite length_take. lia.
  - intros Hge. assert (take (Z.to_nat n) rows = rows) as Hall
      by (apply take_ge; lia).
    split; [exact Hall|]. rewrite Hall. by apply dict_set_same.
Qed.

Lemma limit_keeps_first_rows_witness :
  exists d',
    apply_limit (Args FormatCsv "comets" false false (Some 1)) halley_payload empty_world =
      (Ok d', World (files empty_world) (refused empty_world)
                (console empty_world ++ [LimitedResults 1])) /\
    main (H := plain_decimal) (Args FormatCsv "comets" false false (Some 1))
      (Some halley_payload) empty_world =
      ('(success, filename) ←
          save (H := plain_decimal) (Args FormatCsv "comets" false false (Some 1)) d';
       report (Args FormatCsv "comets" false false (Some 1)) d' success filename)
        (World (files empty_world) (refused empty_world)
           (console empty_world ++ [LimitedResults 1])) /\
    dict_get d' "data" =
      Some (VList (take (Z.to_nat 1)
        [VList [VStr "27740.5"; VStr "1P/Halley"; VStr "2450000.5"; VStr "0.967"];
         VList [VStr "1204"; VStr "2P/Encke"; VStr "51544"; VNone]])) /\
    (forall key, key <> "data"%string -> dict_get d' key = dict_get halley_payload key) /\
    (1 < Z.of_nat (length
        [VList [VStr "27740.5"; VStr "1P/Halley"; VStr "2450000.5"; VStr "0.967"];
         VList [VStr "1204"; VStr "2P/Encke"; VStr "51544"; VNone]]) ->
     length (take (Z.to_nat 1)
        [VList [VStr "27740.5"; VStr "1P/Halley"; VStr "2450000.5"; VStr "0.967"];
         VList [VStr "1204"; VStr "2P/Encke"; VStr "51544"; VNone]]) = Z.to_nat 1) /\
    (Z.of_nat (length
        [VList [VStr "27740.5"; VStr "1P/Halley"; VStr "2450000.5"; VStr "0.967"];
         VList [VStr "1204"; VStr "2P/Encke"; VStr "51544"; VNone]]) <= 1 ->
     take (Z.to_nat 1)
        [VList [VStr "27740.5"; VStr "1P/Halley"; VStr "2450000.5"; VStr "0.967"];
         VList [VStr "1204"; VStr "2P/Encke"; VStr "51544"; VNone]] =
        [VList [VStr "27740.5"; VStr "1P/Halley"; VStr "2450000.5"; VStr "0.967"];
         VList [VStr "1204"; VStr "2P/Encke"; VStr "51544"; VNone]] /\
     d' = halley_payload).
Proof.
  apply (limit_keeps_first_rows (parser := plain_decimal)
           (Args FormatCsv "comets" false false (Some 1)) halley_payload
           [VList [VStr "27740.5"; VStr "1P/Halley"; VStr "2450000.5"; VStr "0.967"];
            VList [VStr "1204"; VStr "2P/Encke"; VStr "51544"; VNone]] 1 empty_world).
  - reflexivity.
  - reflexivity.
  - reflexivity.
Defined.

(** A negative limit drops rows from the end. *)
Example limit_minus_one :
  apply_limit (Args FormatCsv "comets" false false (Some (-1))) halley_payload empty_world =
  (Ok (dict_set halley_payload "data"
         (VList [VList [VStr "27740.5"; VStr "1P/Halley"; VStr "2450000.5"; VStr "0.967"]])),
   World ∅ ∅ [LimitedResults (-1)]).
Proof. reflexivity. Qed.




(** The sample, written and read back as records. *)
Example halley_csv :
  save_as_csv (Some halley_payload) "comets.csv" empty_world =
  (Ok true,
   World {[ "comets.csv"%string :=
              [CsvRecord [VStr "per"; VStr "full_name"; VStr "epoch"; VStr "e"];
               CsvRecord [VStr "27740.5"; VStr "1P/Halley"; VStr "2450000.5"; VStr "0.967"];
               CsvRecord [VStr "1204"; VStr "2P/Encke"; VStr "51544"; VNone]] ]} ∅
         [DataSavedTo "comets.csv"]).
Proof. vm_compute. reflexivity. Qed.

Example no_rows_csv :
  exists w',
    save_as_csv (Some no_rows_payload) "comets.csv" empty_world = (Ok false, w') /\
    console w' = [NoCometRecordsFound].
Proof. eexists. split; [vm_compute; reflexivity | reflexivity]. Qed.

(** C7, as stated, fails for the empty payload [{}]: it lacks [data], and
    the JSON writer refuses it ("No data to save", [False]) and writes
    nothing; [main] does not even reach a writer with it. *)
Lemma empty_payload_not_written :
  dict_has [] "data" = false /\
  save_as_json (Some []) "comets.json" empty_world =
    (Ok false, World ∅ ∅ [NoDataToSave]) /\
  main (H := plain_decimal) (Args FormatJson "comets" false false None) (Some [])
    empty_world = (Ok 1, empty_world).
Proof. repeat split. Qed.

(** C7, amended.  For every payload without the [data] key, the CSV writer
    and the KStars writer each report failure, return [False] and leave
    every file as it was, none created; for such a payload that is not
    empty, the JSON writer, where the file can be opened, returns [True]
    and the file holds the payload as received, dumped with [indent=2]. *)
Theorem missing_data_key {parser : StrToFloat}
    (d : dict) (filename : string) (w : world) :
  dict_has d "data" = false ->
  save_as_csv (Some d) filename w =
    (Ok false, World (files w) (refused w) (console w ++ [NoDataToSave])) /\
  save_as_kstars (Some d) filename w =
    (Ok false,
     World (files w) (refused w)
           (console w ++ [if truthy (VDict d) then ErrorConvertingToKStars
                          else NoDataToSave])) /\
  (d <> [] -> filename ∉ refused w ->
   save_as_json (Some d) filename w =
     (Ok true,
      World (<[filename := JsonChunk <$> json_tokens (JsonStyle (Some 2%nat) "," ": ") 0 (VDict d)]>
               (files w))
            (refused w) (console w ++ [DataSavedTo filename]))).
Proof.
  intros Hdata.
  assert (payload_missing (Some d) = true) as Hmissing.
  { unfold payload_missing. rewrite Hdata. by destruct (truthy (VDict d)). }
  split; [by apply save_as_csv_missing|]. split.
  - destruct (truthy (VDict d)) eqn:Htrue.
    + apply (save_as_kstars_refusal _ _ _ VNone); [done | | done].
      by apply convert_without_keys.
    + by apply save_as_kstars_nothing.
  - intros Hd Hfile. apply (save_as_json_written (Some d)); [|done]. by destruct d.
Qed.

Lemma missing_data_key_witness :
  save_as_csv (Some message_payload) "comets.csv" earlier_world =
    (Ok false,
     World (files earlier_world) (refused earlier_world)
           (console earlier_world ++ [NoDataToSave])) /\
  save_as_kstars (H := plain_decimal) (Some message_payload) "comets.csv" earlier_world =
    (Ok false,
     World (files earlier_world) (refused earlier_world)
           (console earlier_world ++ [if truthy (VDict message_payload)
                                      then ErrorConvertingToKStars else NoDataToSave])) /\
  (message_payload <> [] -> "comets.csv"%string ∉ refused earlier_world ->
   save_as_json (Some message_payload) "comets.csv" earlier_world =
     (Ok true,
      World (<["comets.csv"%string :=
               JsonChunk <$> json_tokens (JsonStyle (Some 2%nat) "," ": ") 0
                               (VDict message_payload)]>
               (files earlier_world))
            (refused earlier_world)
            (console earlier_world ++ [DataSavedTo "comets.csv"]))).
Proof.
  apply (missing_data_key (parser := plain_decimal) message_payload "comets.csv"
           earlier_world).
  reflexivity.
Defined.

(** The payload without [data], as the JSON writer lays it out. *)
Example message_json :
  save_as_json (Some message_payload) "comets.json" empty_world =
  (Ok true,
   World {[ "comets.json"%string :=
              JsonChunk <$>
                [Punct "{"; Punct (newline ++ "  "); TStr "message"; Punct ": ";
                 TStr "no matching records"; Punct ","; Punct (newline ++ "  ");
                 TStr "count"; Punct ": "; TInt 0; Punct newline; Punct "}"] ]} ∅
         [DataSavedTo "comets.json"]).
Proof. vm_compute. reflexivity. Qed.

(** C3: the code at an integer epoch beyond the doubles.  [float()] raises
    [OverflowError], the handler takes [ValueError] and [TypeError] only,
    and the exception leaves [convert_to_kstars_format]: the cell is not
    [None], and the run of the KStars writer ends in failure. *)
Theorem huge_epoch_raises :
  py_float (H := plain_decimal) (VInt (10 ^ 400)) = Raise OverflowError /\
  convert_value (H := plain_decimal) "epoch.mjd" (VInt (10 ^ 400)) = Raise OverflowError /\
  convert_to_kstars_format (H := plain_decimal) (Some huge_epoch_payload) =
    Raise OverflowError /\
  save_as_kstars (H := plain_decimal) (Some huge_epoch_payload) "comets.dat" empty_world =
    (Ok false, World ∅ ∅ [ErrorSavingKStars OverflowError]).
Proof. repeat split; vm_compute; reflexivity. Qed.

(** C4: the code at an integer period beyond the doubles, as for C3. *)
Theorem huge_period_raises :
  py_float (H := plain_decimal) (VInt (10 ^ 400)) = Raise OverflowError /\
  convert_value (H := plain_decimal) "per.y" (VInt (10 ^ 400)) = Raise OverflowError /\
  convert_to_kstars_format (H := plain_decimal) (Some huge_period_payload) =
    Raise OverflowError /\
  save_as_kstars (H := plain_decimal) (Some huge_period_payload) "comets.dat" empty_world =
    (Ok false, World ∅ ∅ [ErrorSavingKStars OverflowError]).
Proof. repeat split; vm_compute; reflexivity. Qed.

(** C9: the code at a table without rows.  [comets.csv] held two records;
    the CSV writer opens it, finds no rows, reports "No comet records
    found" and returns [False]; the file is left empty. *)
Theorem no_rows_truncates_earlier_file :
  files earlier_world !! "comets.csv"%string =
    Some [CsvRecord [VStr "full_name"]; CsvRecord [VStr "1P/Halley"]] /\
  exists w',
    save_as_csv (Some no_rows_payload) "comets.csv" earlier_world = (Ok false, w') /\
    console w' = [NoCometRecordsFound] /\
    files w' !! "comets.csv"%string = Some [].
Proof.
  split; [reflexivity|]. eexists. split; [vm_compute; reflexivity|].
  split; reflexivity.
Qed.

(** * Further properties *)

(** ** What an action can touch *)

Section Confined.
Context (filename : string).

Lemma confined_ret {A} (a : A) : confined_to filename (mret a).
Proof. intros w r w' [= <- <-]. repeat split. exists []. by rewrite app_nil_r. Qed.

Lemma confined_lift {A} (c : result A) : confined_to filename (lift c).
Proof. intros w r w' [= <- <-]. repeat split. exists []. by rewrite app_nil_r. Qed.

Lemma confined_print m : confined_to filename (print m).
Proof. intros w r w' [= <- <-]. cbn. repeat split. by exists [m]. Qed.

Lemma confined_open : confined_to filename (open_w filename).
Proof.
  intros w r w'. unfold open_w. destruct (decide _); intros [= <- <-]; cbn.
  - repeat split. exists []. by rewrite app_nil_r.
  - split; [done|]. split; [|exists []; by rewrite app_nil_r].
    intros other Hother. by rewrite lookup_insert_ne.
Qed.

Lemma confined_write es : confined_to filename (write filename es).
Proof.
  intros w r w' [= <- <-]. cbn. split; [done|].
  split; [|exists []; by rewrite app_nil_r].
  intros other Hother. by rewrite lookup_insert_ne.
Qed.

Lemma confined_bind {A B} (c : io A) (k : A -> io B) :
  confined_to filename c -> (forall a, confined_to filename (k a)) ->
  confined_to filename (c ≫= k).
Proof.
  intros Hc Hk w r w'. unfold mbind, io_bind.
  destruct (c w) as [[a|e] w1] eqn:Hcw.
  - intros Hkw. destruct (Hc _ _ _ Hcw) as (Hr1 & Hf1 & out1 & Hc1).
    destruct (Hk a _ _ _ Hkw) as (Hr2 & Hf2 & out2 & Hc2).
    split; [congruence|]. split.
    + intros other Hother. rewrite (Hf2 other Hother). by apply Hf1.
    + exists (out1 ++ out2). by rewrite Hc2, Hc1, app_assoc.
  - intros [= <- <-]. exact (Hc _ _ _ Hcw).
Qed.

Lemma confined_try_io {A} (c : io A) (handler : exn -> io A) :
  confined_to filename c -> (forall e, confined_to filename (handler e)) ->
  confined_to filename (try_io c handler).
Proof.
  intros Hc Hh w r w'. unfold try_io.
  destruct (c w) as [[a|e] w1] eqn:Hcw.
  - intros [= <- <-]. exact (Hc _ _ _ Hcw).
  - intros Hhw. destruct (Hc _ _ _ Hcw) as (Hr1 & Hf1 & out1 & Hc1).
    destruct (Hh e _ _ _ Hhw) as (Hr2 & Hf2 & out2 & Hc2).
    split; [congruence|]. split.
    + intros other Hother. rewrite (Hf2 other Hother). by apply Hf1.
    + exists (out1 ++ out2). by rewrite Hc2, Hc1, app_assoc.
Qed.

Lemma confined_writerows_list rows : confined_to filename (writerows_list filename rows).
Proof.
  induction rows as [|row rows IH]; cbn [writerows_list]; [apply confined_ret|].
  apply confined_bind; [|intros _; exact IH].
  unfold writerow. apply confined_bind; [apply confined_lift|].
  intros cells. apply confined_write.
Qed.
End Confined.

Ltac confine :=
  repeat first
    [ apply confined_ret | apply confined_lift | apply confined_print
    | apply confined_open | apply confined_write | apply confined_writerows_list
    | apply confined_bind; [|intros ?]
    | apply confined_try_io; [|intros ?]
    | match goal with
      | |- confined_to _ (if ?b then _ else _) => destruct b
      end ].

Lemma confined_save_as_csv data filename : confined_to filename (save_as_csv data filename).
Proof.
  unfold save_as_csv. destruct data as [d|]; [|confine].
  destruct (payload_missing (Some d)); [confine|].
  unfold writerow, writerows. confine.
Qed.

Lemma confined_save_as_json data filename : confined_to filename (save_as_json data filename).
Proof. unfold save_as_json, json_dump. confine. Qed.

Lemma confined_save_as_kstars {parser : StrToFloat} data filename :
  confined_to filename (save_as_kstars data filename).
Proof. unfold save_as_kstars, json_dump. confine. Qed.

(** ** The writers as a whole *)

Lemma try_io_returns {A} (c : io A) (handler : exn -> io A) w :
  (forall e w1, exists a, (handler e w1).1 = Ok a) ->
  exists a, (try_io c handler w).1 = Ok a.
Proof.
  intros Hh. unfold try_io. destruct (c w) as [[a|e] w1]; [by exists a | apply Hh].
Qed.

Lemma writers_refused_path_kstars {parser : StrToFloat} data filename w :
  filename ∈ refused w ->
  (save_as_kstars data filename w).1 = Ok false /\
  files (save_as_kstars data filename w).2 = files w.
Proof.
  intros Hfile. unfold save_as_kstars. destruct (negb _); [done|].
  unfold try_io, mbind, io_bind, lift.
  destruct (convert_to_kstars_format data) as [v|e]; [|done].
  destruct (negb (truthy v)); [done|].
  by rewrite (open_w_refused _ _ Hfile).
Qed.

Lemma save_as_csv_returns data filename w :
  exists b, (save_as_csv data filename w).1 = Ok b.
Proof.
  unfold save_as_csv. destruct data as [d|]; [|by exists false].
  destruct (payload_missing (Some d)); [by exists false|].
  apply try_io_returns. intros e w1. by exists false.
Qed.

Lemma save_as_json_returns data filename w :
  exists b, (save_as_json data filename w).1 = Ok b.
Proof.
  unfold save_as_json. destruct (negb _); [by exists false|].
  apply try_io_returns. intros e w1. by exists false.
Qed.

Lemma save_as_kstars_returns {parser : StrToFloat} data filename w :
  exists b, (save_as_kstars data filename w).1 = Ok b.
Proof.
  unfold save_as_kstars. destruct (negb _); [by exists false|].
  apply try_io_returns. intros e w1. by exists false.
Qed.

(** X1.  None of the three writers lets an exception out: whatever the
    payload, the path and the state of the files, each returns [True] or
    [False]. *)
Theorem writers_never_raise {parser : StrToFloat}
    (data : option dict) (filename : string) (w : world) :
  (exists b, (save_as_csv data filename w).1 = Ok b) /\
  (exists b, (save_as_json data filename w).1 = Ok b) /\
  (exists b, (save_as_kstars data filename w).1 = Ok b).
Proof.
  split; [apply save_as_csv_returns|].
  split; [apply save_as_json_returns|].
  apply save_as_kstars_returns.
Qed.

(** X2.  A writer changes no file but the one it is given, whether it
    succeeds or fails, and never what the system refuses to open. *)
Theorem writers_keep_other_files {parser : StrToFloat}
    (data : option dict) (filename other : string) (w : world) :
  other <> filename ->
  files (save_as_csv data filename w).2 !! other = files w !! other /\
  files (save_as_json data filename w).2 !! other = files w !! other /\
  files (save_as_kstars data filename w).2 !! other = files w !! other /\
  refused (save_as_csv data filename w).2 = refused w /\
  refused (save_as_json data filename w).2 = refused w /\
  refused (save_as_kstars data filename w).2 = refused w.
Proof.
  intros Hother.
  destruct (save_as_csv data filename w) as [r1 w1] eqn:H1.
  destruct (save_as_json data filename w) as [r2 w2] eqn:H2.
  destruct (save_as_kstars data filename w) as [r3 w3] eqn:H3.
  destruct (confined_save_as_csv _ _ _ _ _ H1) as (? & Hf1 & _).
  destruct (confined_save_as_json _ _ _ _ _ H2) as (? & Hf2 & _).
  destruct (confined_save_as_kstars _ _ _ _ _ H3) as (? & Hf3 & _).
  cbn. repeat split; auto.
Qed.

Lemma writers_keep_other_files_witness :
  files (save_as_csv (Some halley_payload) "comets.dat" earlier_world).2
    !! "comets.csv"%string = files earlier_world !! "comets.csv"%string /\
  files (save_as_json (Some halley_payload) "comets.dat" earlier_world).2
    !! "comets.csv"%string = files earlier_world !! "comets.csv"%string /\
  files (save_as_kstars (H := plain_decimal) (Some halley_payload) "comets.dat"
           earlier_world).2
    !! "comets.csv"%string = files earlier_world !! "comets.csv"%string /\
  refused (save_as_csv (Some halley_payload) "comets.dat" earlier_world).2
    = refused earlier_world /\
  refused (save_as_json (Some halley_payload) "comets.dat" earlier_world).2
    = refused earlier_world /\
  refused (save_as_kstars (H := plain_decimal) (Some halley_payload) "comets.dat"
             earlier_world).2
    = refused earlier_world.
Proof.
  apply (writers_keep_other_files (parser := plain_decimal) (Some halley_payload)
           "comets.dat" "comets.csv" earlier_world).
  discriminate.
Defined.

(** X3.  Where the file cannot be opened, each writer returns [False]
    and leaves every file as it was. *)
Theorem writers_refused_path {parser : StrToFloat}
    (data : option dict) (filename : string) (w : world) :
  filename ∈ refused w ->
  ((save_as_csv data filename w).1 = Ok false /\
   files (save_as_csv data filename w).2 = files w) /\
  ((save_as_json data filename w).1 = Ok false /\
   files (save_as_json data filename w).2 = files w) /\
  ((save_as_kstars data filename w).1 = Ok false /\
   files (save_as_kstars data filename w).2 = files w).
Proof.
  intros Hfile. split; [|split].
  - unfold save_as_csv. destruct data as [d|]; [|done].
    destruct (payload_missing (Some d)); [done|].
    unfold try_io, mbind, io_bind. by rewrite (open_w_refused _ _ Hfile).
  - unfold save_as_json. destruct (negb _); [done|].
    unfold try_io, mbind, io_bind. by rewrite (open_w_refused _ _ Hfile).
  - by apply writers_refused_path_kstars.
Qed.

Lemma writers_refused_path_witness :
  ((save_as_csv (Some halley_payload) "comets.csv"
      (World (files earlier_world) {[ "comets.csv"%string ]} [])).1 = Ok false /\
   files (save_as_csv (Some halley_payload) "comets.csv"
            (World (files earlier_world) {[ "comets.csv"%string ]} [])).2
   = files (World (files earlier_world) {[ "comets.csv"%string ]} [])) /\
  ((save_as_json (Some halley_payload) "comets.csv"
      (World (files earlier_world) {[ "comets.csv"%string ]} [])).1 = Ok false /\
   files (save_as_json (Some halley_payload) "comets.csv"
            (World (files earlier_world) {[ "comets.csv"%string ]} [])).2
   = files (World (files earlier_world) {[ "comets.csv"%string ]} [])) /\
  ((save_as_kstars (H := plain_decimal) (Some halley_payload) "comets.csv"
      (World (files earlier_world) {[ "comets.csv"%string ]} [])).1 = Ok false /\
   files (save_as_kstars (H := plain_decimal) (Some halley_payload) "comets.csv"
            (World (files earlier_world) {[ "comets.csv"%string ]} [])).2
   = files (World (files earlier_world) {[ "comets.csv"%string ]} [])).
Proof.
  apply (writers_refused_path (parser := plain_decimal) (Some halley_payload)
           "comets.csv" (World (files earlier_world) {[ "comets.csv"%string ]} [])).
  cbn. apply elem_of_singleton. reflexivity.
Defined.

Lemma save_as_json_cases (data : option dict) (filename : string) (w : world) :
  ((save_as_json data filename w).1 = Ok true /\
   files (save_as_json data filename w).2 =
     <[filename := JsonChunk <$> json_tokens indent2 0 (payload_value data)]> (files w))
  \/
  ((save_as_json data filename w).1 = Ok false /\
   files (save_as_json data filename w).2 = files w).
Proof.
  destruct (truthy (payload_value data)) eqn:Htrue.
  - destruct (decide (filename ∈ refused w)) as [Hin|Hout].
    + right. unfold save_as_json. rewrite Htrue. cbn [negb].
      unfold try_io, mbind, io_bind. by rewrite (open_w_refused _ _ Hin).
    + left. by rewrite (save_as_json_written _ _ _ Htrue Hout).
  - right. by rewrite (save_as_json_nothing _ _ _ Htrue).
Qed.

Lemma save_as_kstars_cases {parser : StrToFloat}
    (data : option dict) (filename : string) (w : world) :
  (exists v,
     convert_to_kstars_format data = Ok v /\
     (save_as_kstars data filename w).1 = Ok true /\
     files (save_as_kstars data filename w).2 =
       <[filename := JsonChunk <$> json_tokens compact 0 v]> (files w))
  \/
  ((save_as_kstars data filename w).1 = Ok false /\
   files (save_as_kstars data filename w).2 = files w).
Proof.
  destruct (truthy (payload_value data)) eqn:Htrue;
    [|right; by rewrite (save_as_kstars_nothing _ _ _ Htrue)].
  destruct (convert_to_kstars_format data) as [v|e] eqn:Hv;
    [|right; by rewrite (save_as_kstars_raised _ _ _ _ Htrue Hv)].
  destruct (truthy v) eqn:Hvt;
    [|right; by rewrite (save_as_kstars_refusal _ _ _ _ Htrue Hv Hvt)].
  destruct (decide (filename ∈ refused w)) as [Hin|Hout].
  - right. by apply writers_refused_path_kstars.
  - left. exists v. by rewrite (save_as_kstars_written _ _ _ _ Htrue Hv Hvt Hout).
Qed.


(** ** The CSV writer, row by row *)

Lemma writerow_iterable filename row cells es fs rs out :
  py_iter row = Ok cells ->
  writerow filename row (World (<[filename := es]> fs) rs out) =
  (Ok tt, World (<[filename := es ++ [CsvRecord cells]]> fs) rs out).
Proof.
  intros Hrow. unfold writerow, mbind, io_bind, lift. rewrite Hrow. cbn [try_except].
  apply write_append.
Qed.

Lemma writerow_scalar filename row e w :
  py_iter row = Raise e -> writerow filename row w = (Raise CsvError, w).
Proof. intros Hrow. unfold writerow, mbind, io_bind, lift. by rewrite Hrow. Qed.

(** Rows that were all written: each was iterable, and the file grew by
    one record per row. *)
Lemma writerows_list_written filename rows es fs rs out w' :
  writerows_list filename rows (World (<[filename := es]> fs) rs out) = (Ok tt, w') ->
  exists records,
    Forall2 (fun row cells => py_iter row = Ok cells) rows records /\
    w' = World (<[filename := es ++ (CsvRecord <$> records)]> fs) rs out.
Proof.
  revert es. induction rows as [|row rows IH]; intros es.
  - intros [= <-]. exists []. split; [constructor|]. by rewrite app_nil_r.
  - cbn [writerows_list]. unfold mbind at 1, io_bind at 1.
    destruct (py_iter row) as [cells|e] eqn:Hrow.
    + rewrite (writerow_iterable _ _ _ _ _ _ _ Hrow). intros H.
      apply IH in H as (records & Hall & ->).
      exists (cells :: records). split; [by constructor|].
      cbn. by rewrite <- app_assoc.
    + by rewrite (writerow_scalar _ _ _ _ Hrow).
Qed.


Lemma save_as_csv_true_inv
    (data : option dict) (filename : string) (w w' : world) :
  save_as_csv data filename w = (Ok true, w') ->
  exists d fieldnames header rows_value rows records,
    data = Some d /\
    dict_get d "fields" = Some fieldnames /\ py_iter fieldnames = Ok header /\
    dict_get d "data" = Some rows_value /\ truthy rows_value = true /\
    py_iter rows_value = Ok rows /\
    Forall2 (fun row cells => py_iter row = Ok cells) rows records /\
    files w' = <[filename := CsvRecord header :: (CsvRecord <$> records)]> (files w) /\
    console w' = console w ++ [DataSavedTo filename].
Proof.
  unfold save_as_csv. destruct data as [d|]; [|discriminate].
  destruct (payload_missing (Some d)) eqn:Hmissing; [discriminate|].
  unfold try_io, mbind at 1, io_bind at 1, open_w.
  destruct (decide (filename ∈ refused w)); [discriminate|].
  unfold mbind at 1, io_bind at 1, lift at 1, dict_lookup.
  destruct (dict_get d "data") as [rows_value|] eqn:Hd; [|discriminate].
  destruct (truthy rows_value) eqn:Htrue; [|discriminate]. cbn [negb].
  unfold mbind at 1, io_bind at 1, lift at 1.
  destruct (dict_get d "fields") as [fieldnames|] eqn:Hf; [|discriminate].
  unfold mbind at 1, io_bind at 1.
  destruct (py_iter fieldnames) as [header|e] eqn:Hheader;
    [|by rewrite (writerow_scalar _ _ _ _ Hheader)].
  rewrite (writerow_iterable _ _ _ _ _ _ _ Hheader). cbn [app].
  unfold mbind at 1, io_bind at 1, lift at 1.
  unfold writerows, mbind at 1, io_bind at 1, mbind at 1, io_bind at 1, lift at 1.
  destruct (py_iter rows_value) as [rows|e] eqn:Hrows; [|discriminate].
  destruct (writerows_list filename rows _) as [[[]|e] w1] eqn:Hwritten; [|discriminate].
  apply writerows_list_written in Hwritten as (records & Hall & ->).
  intros [= <-]. exists d, fieldnames, header, rows_value, rows, records.
  repeat split; done.
Qed.

(** X5.  The CSV writer returns [True] only after the whole table is in
    the file: the payload then has [fields] and a non-empty [data], both
    iterable, every row is iterable, and the file holds the header record
    followed by exactly one record per row, in order; the last line
    printed is "Data saved to" the file. *)
Theorem save_as_csv_true_means_written
    (data : option dict) (filename : string) (w w' : world) :
  save_as_csv data filename w = (Ok true, w') ->
  exists d fieldnames header rows_value rows records,
    data = Some d /\
    dict_get d "fields" = Some fieldnames /\ py_iter fieldnames = Ok header /\
    dict_get d "data" = Some rows_value /\ truthy rows_value = true /\
    py_iter rows_value = Ok rows /\
    Forall2 (fun row cells => py_iter row = Ok cells) rows records /\
    files w' = <[filename := CsvRecord header :: (CsvRecord <$> records)]> (files w) /\
    console w' = console w ++ [DataSavedTo filename].
Proof.
  intros Hsaved.
  destruct (save_as_csv_true_inv _ _ _ _ Hsaved)
    as (d & fieldnames & header & rows_value & rows & records & Hrest).
  by exists d, fieldnames, header, rows_value, rows, records.
Qed.

Lemma save_as_csv_true_means_written_witness :
  exists d fieldnames header rows_value rows records,
    Some halley_payload = Some d /\
    dict_get d "fields" = Some fieldnames /\ py_iter fieldnames = Ok header /\
    dict_get d "data" = Some rows_value /\ truthy rows_value = true /\
    py_iter rows_value = Ok rows /\
    Forall2 (fun row cells => py_iter row = Ok cells) rows records /\
    files (World {[ "comets.csv"%string :=
                      [CsvRecord [VStr "per"; VStr "full_name"; VStr "epoch"; VStr "e"];
                       CsvRecord [VStr "27740.5"; VStr "1P/Halley"; VStr "2450000.5";
                                  VStr "0.967"];
                       CsvRecord [VStr "1204"; VStr "2P/Encke"; VStr "51544"; VNone]] ]} ∅
                 [DataSavedTo "comets.csv"]) =
      <["comets.csv"%string := CsvRecord header :: (CsvRecord <$> records)]>
        (files empty_world) /\
    console (World {[ "comets.csv"%string :=
                      [CsvRecord [VStr "per"; VStr "full_name"; VStr "epoch"; VStr "e"];
                       CsvRecord [VStr "27740.5"; VStr "1P/Halley"; VStr "2450000.5";
                                  VStr "0.967"];
                       CsvRecord [VStr "1204"; VStr "2P/Encke"; VStr "51544"; VNone]] ]} ∅
                 [DataSavedTo "comets.csv"]) =
      console empty_world ++ [DataSavedTo "comets.csv"].
Proof.
  apply (save_as_csv_true_means_written (Some halley_payload) "comets.csv" empty_world).
  vm_compute. reflexivity.
Defined.



(** ** The conversion: more of its behaviour *)

(** X7.  A table without rows is not an error for the KStars format: the
    conversion returns the KStars object with an empty [data] and [count]
    0, and the writer, where the file can be opened, writes it and
    returns [True]. *)
Theorem kstars_accepts_no_rows {parser : StrToFloat}
    (d : dict) (jpl_fields : value) (fields : list value)
    (filename : string) (w : world) :
  dict_get d "fields" = Some jpl_fields -> py_iter jpl_fields = Ok fields ->
  dict_get d "data" = Some (VList []) ->
  filename ∉ refused w ->
  convert_to_kstars_format (Some d) =
    Ok (VDict [("signature"%string, VStr kstars_signature);
               ("fields"%string, VList (VStr <$> kstars_fields));
               ("data"%string, VList []); ("count"%string, VInt 0)]) /\
  save_as_kstars (Some d) filename w =
    (Ok true,
     World (<[filename := JsonChunk <$> json_tokens compact 0 (kstars_table [])]> (files w))
           (refused w)
           (console w ++ [DataSavedInKStarsFormat filename; CompatibleWithKStars])).
Proof.
  intros Hf Hfi Hd Hfile.
  assert (convert_to_kstars_format (Some d) = Ok (kstars_table [])) as Hconv.
  { by rewrite (convert_unfold_iter d jpl_fields (VList []) fields [] Hf Hfi Hd). }
  split; [exact Hconv|].
  apply save_as_kstars_written; [|exact Hconv|reflexivity|exact Hfile].
  exact (dict_get_truthy _ _ _ Hf).
Qed.

Lemma kstars_accepts_no_rows_witness :
  convert_to_kstars_format (H := plain_decimal) (Some no_rows_payload) =
    Ok (VDict [("signature"%string, VStr kstars_signature);
               ("fields"%string, VList (VStr <$> kstars_fields));
               ("data"%string, VList []); ("count"%string, VInt 0)]) /\
  save_as_kstars (H := plain_decimal) (Some no_rows_payload) "comets.dat" empty_world =
    (Ok true,
     World (<["comets.dat"%string := JsonChunk <$> json_tokens compact 0 (kstars_table [])]>
              (files empty_world))
           (refused empty_world)
           (console empty_world
            ++ [DataSavedInKStarsFormat "comets.dat"; CompatibleWithKStars])).
Proof.
  apply (kstars_accepts_no_rows (parser := plain_decimal) no_rows_payload
           (VList [VStr "full_name"]) [VStr "full_name"] "comets.dat" empty_world).
  - reflexivity.
  - reflexivity.
  - reflexivity.
  - cbn. apply not_elem_of_empty.
Defined.

(** Where a cell of an output row comes from. *)
Lemma convert_value_numeric {parser : StrToFloat} field v c :
  numeric_field field = true -> convert_value field v = Ok c ->
  c = VNone \/ exists x, c = VFloat x.
Proof.
  unfold numeric_field, convert_value. intros Hfield.
  destruct (String.eqb field "per.y") eqn:Hper; cbn [andb orb] in *.
  - destruct (is_none v) eqn:Hnone; cbn [negb].
    + destruct v; try discriminate. destruct (String.eqb field "epoch.mjd"); cbn;
        intros [= <-]; by left.
    + destruct (py_float v) as [x|e]; cbn.
      * intros [= <-]. right. by eexists.
      * destruct (only_value_or_type e); [intros [= <-]; by left | discriminate].
  - rewrite Hfield. cbn [andb].
    destruct (is_none v) eqn:Hnone; cbn [negb].
    + destruct v; try discriminate. intros [= <-]. by left.
    + destruct (py_float v) as [x|e]; cbn.
      * destruct (_ <? _)%float; intros [= <-]; right; by eexists.
      * destruct (only_value_or_type e); [intros [= <-]; by left | discriminate].
Qed.

Lemma convert_value_plain {parser : StrToFloat} field v c :
  numeric_field field = false -> convert_value field v = Ok c -> c = v.
Proof.
  unfold numeric_field, convert_value. intros [H1 H2]%orb_false_iff.
  rewrite H1, H2. cbn. by intros [= <-].
Qed.

(** X8.  Every cell of a converted row is accounted for: the cells of
    [per.y] and [epoch.mjd] are a float or [None], and every other cell is
    [None] or a cell of the source row, untouched.  The conversion puts no
    other value into a row. *)
Theorem converted_cells_come_from_the_row {parser : StrToFloat}
    (field_map : gmap string nat) (cells out : list value)
    (k : nat) (field : string) (c : value) :
  convert_row field_map (VList cells) = Ok (VList out) ->
  kstars_fields !! k = Some field -> out !! k = Some c ->
  if numeric_field field then c = VNone \/ exists x, c = VFloat x
  else c = VNone \/ c ∈ cells.
Proof.
  intros Hrow Hk Hc.
  destruct (convert_row_cell _ _ _ _ _ Hrow Hk) as (c' & Hc' & Hcell).
  assert (c' = c) as -> by congruence.
  unfold convert_cell in Hcell.
  destruct (field_map !! field) as [j|]; [|injection Hcell as <-; destruct (numeric_field field); by left].
  cbn in Hcell. destruct (cells !! j) as [v|] eqn:Hv; cbn in Hcell; [|discriminate].
  destruct (numeric_field field) eqn:Hnum.
  - by eapply convert_value_numeric.
  - apply (convert_value_plain _ _ _ Hnum) in Hcell as ->.
    right. by eapply list_elem_of_lookup_2.
Qed.

Lemma converted_cells_come_from_the_row_witness :
  if numeric_field "per.y" then VFloat (27740.5 / 365.25) = VNone
                                \/ exists x, VFloat (27740.5 / 365.25) = VFloat x
  else VFloat (27740.5 / 365.25) = VNone
       \/ VFloat (27740.5 / 365.25)
          ∈ [VStr "27740.5"; VStr "1P/Halley"; VStr "2450000.5"; VStr "0.967"].
Proof.
  apply (converted_cells_come_from_the_row (parser := plain_decimal)
           (fill_field_map [VStr "per"; VStr "full_name"; VStr "epoch"; VStr "e"] 0 ∅)
           [VStr "27740.5"; VStr "1P/Halley"; VStr "2450000.5"; VStr "0.967"]
           [VStr "1P/Halley"; VFloat 50000; VNone; VStr "0.967"; VNone; VNone; VNone;
            VNone; VNone; VNone; VNone; VNone; VNone; VNone; VNone; VNone;
            VFloat (27740.5 / 365.25); VNone; VNone; VNone; VNone]
           16%nat "per.y").
  - vm_compute. reflexivity.
  - reflexivity.
  - reflexivity.
Defined.

(** ** Columns *)

Lemma mapM_ext {A B} (f g : A -> result B) l :
  (forall x, f x = g x) -> mapM f l = mapM g l.
Proof. intros H. induction l as [|x l IH]; cbn; [done|]. by rewrite H, IH. Qed.

Lemma mapM_ext_Forall2 {A1 A2 B} (f : A1 -> result B) (g : A2 -> result B) l1 l2 :
  Forall2 (fun x y => f x = g y) l1 l2 -> mapM f l1 = mapM g l2.
Proof. induction 1 as [|x y l1 l2 H _ IH]; cbn; [done|]. by rewrite H, IH. Qed.

(** The column that the field map points at, found in the row itself. *)
Lemma last_index_column P fields : forall cells before found,
  length fields = length cells ->
  (last_index P fields (length before) found ≫= fun j => (before ++ cells) !! j) =
  last_column P (zip fields cells) (found ≫= fun j => (before ++ cells) !! j).
Proof.
  induction fields as [|f fields IH]; intros [|c cells] before found Hlen;
    try discriminate; [done|].
  cbn [last_index zip zip_with last_column].
  replace (before ++ c :: cells) with ((before ++ [c]) ++ cells)
    by (by rewrite <- app_assoc).
  replace (S (length before)) with (length (before ++ [c]))
    by (rewrite length_app; cbn; lia).
  rewrite IH by (cbn in Hlen; lia). f_equal.
  destruct (P f); [|done]. cbn.
  rewrite lookup_app_l by (rewrite length_app; cbn; lia).
  by rewrite list_lookup_middle.
Qed.

Lemma convert_cell_column {parser : StrToFloat} fields cells tgt :
  length fields = length cells ->
  convert_cell (fill_field_map fields 0 ∅) (VList cells) tgt =
  match last_column (fun f => bool_decide (key_of f = Some tgt)) (zip fields cells) None with
  | Some v => convert_value tgt v
  | None => Ok VNone
  end.
Proof.
  intros Hlen. unfold convert_cell.
  pose proof (last_index_column (fun f => bool_decide (key_of f = Some tgt))
                fields cells [] None Hlen) as Hcol.
  cbn [length app mbind option_bind] in Hcol. rewrite <- Hcol.
  destruct (fill_field_map fields 0 ∅ !! tgt) as [j|] eqn:Hj.
  - pose proof (field_map_bound _ _ _ Hj) as Hbound.
    rewrite fill_field_map_lookup, lookup_empty in Hj. rewrite Hj. cbn.
    destruct (lookup_lt_is_Some_2 cells j) as [v Hv]; [lia|]. by rewrite Hv.
  - rewrite fill_field_map_lookup, lookup_empty in Hj. by rewrite Hj.
Qed.

Lemma last_column_cases P columns found :
  (last_column P columns found = found /\
   forall f v, (f, v) ∈ columns -> P f = false) \/
  (exists f v, (f, v) ∈ columns /\ P f = true /\ last_column P columns found = Some v).
Proof.
  revert found. induction columns as [|[g u] columns IH]; intros found.
  - left. split; [done|]. intros f v Hin. by apply elem_of_nil in Hin.
  - cbn [last_column].
    destruct (IH (if P g then Some u else found)) as [[Hsame Hnone]|(f & v & Hin & HP & Hlast)].
    + destruct (P g) eqn:Hg.
      * right. exists g, u. split; [constructor|]. by rewrite Hsame.
      * left. split; [done|]. intros f v [[= -> ->]|Hin]%elem_of_cons; eauto.
    + right. exists f, v. split; [by constructor|]. done.
Qed.

(** Two sets of columns that agree on the columns satisfying [P], with at
    most one cell for them, give the same cell. *)
Lemma last_column_agree P columns1 columns2 :
  (forall f v, P f = true -> (f, v) ∈ columns1 <-> (f, v) ∈ columns2) ->
  (forall f1 v1 f2 v2, (f1, v1) ∈ columns1 -> (f2, v2) ∈ columns1 ->
     P f1 = true -> P f2 = true -> v1 = v2) ->
  last_column P columns1 None = last_column P columns2 None.
Proof.
  intros Hsame Hone.
  destruct (last_column_cases P columns1 None) as [[-> Hnone1]|(f1 & v1 & Hin1 & HP1 & ->)];
    destruct (last_column_cases P columns2 None) as [[-> Hnone2]|(f2 & v2 & Hin2 & HP2 & ->)];
    try done.
  - apply Hsame in Hin2; [|done]. by rewrite (Hnone1 _ _ Hin2) in HP2.
  - apply Hsame in Hin1; [|done]. by rewrite (Hnone2 _ _ Hin1) in HP1.
  - apply Hsame in Hin2; [|done]. f_equal. by eapply Hone.
Qed.

Lemma zip_one_cell (fields cells : list value) f v1 v2 :
  NoDup fields -> (f, v1) ∈ zip fields cells -> (f, v2) ∈ zip fields cells -> v1 = v2.
Proof.
  intros Hnodup [i1 H1]%list_elem_of_lookup_1 [i2 H2]%list_elem_of_lookup_1.
  apply lookup_zip_with_Some in H1 as (f1 & c1 & [= <- <-] & Hf1 & Hc1).
  apply lookup_zip_with_Some in H2 as (f2 & c2 & [= <- <-] & Hf2 & Hc2).
  assert (i1 = i2) as -> by (by eapply NoDup_lookup).
  congruence.
Qed.

Lemma key_of_same_field f1 f2 tgt :
  key_of f1 = Some tgt -> key_of f2 = Some tgt -> f1 = f2.
Proof.
  intros (src1 & -> & H1)%key_of_Some (src2 & -> & H2)%key_of_Some.
  by rewrite (field_pairs_source _ _ _ H1 H2).
Qed.

Lemma convert_row_agree {parser : StrToFloat} fields1 cells1 fields2 cells2 :
  length cells1 = length fields1 -> length cells2 = length fields2 ->
  NoDup fields1 ->
  (forall src tgt v, (src, tgt) ∈ field_pairs ->
     (VStr src, v) ∈ zip fields1 cells1 <-> (VStr src, v) ∈ zip fields2 cells2) ->
  convert_row (fill_field_map fields1 0 ∅) (VList cells1) =
  convert_row (fill_field_map fields2 0 ∅) (VList cells2).
Proof.
  intros Hlen1 Hlen2 Hnodup Hsame. unfold convert_row. f_equal.
  apply mapM_ext. intros tgt.
  rewrite !convert_cell_column by done.
  rewrite (last_column_agree _ (zip fields1 cells1) (zip fields2 cells2)); [done| |].
  - intros f v (src & -> & Hpair)%bool_decide_eq_true%key_of_Some. by eapply Hsame.
  - intros f1 v1 f2 v2 Hin1 Hin2 HP1%bool_decide_eq_true HP2%bool_decide_eq_true.
    rewrite (key_of_same_field _ _ _ HP1 HP2) in Hin1.
    by eapply zip_one_cell.
Qed.

Lemma convert_row_permuted {parser : StrToFloat} fields1 cells1 fields2 cells2 :
  length cells1 = length fields1 -> length cells2 = length fields2 ->
  NoDup fields1 -> zip fields1 cells1 ≡ₚ zip fields2 cells2 ->
  convert_row (fill_field_map fields1 0 ∅) (VList cells1) =
  convert_row (fill_field_map fields2 0 ∅) (VList cells2).
Proof.
  intros Hlen1 Hlen2 Hnodup Hperm. apply convert_row_agree; try done.
  intros src tgt v _. by rewrite Hperm.
Qed.

(** X9.  The order of the source columns does not matter: two tables with
    distinct field names whose rows hold the same cells under the same
    names, in whatever column order, are converted to the same KStars
    object. *)
Theorem convert_ignores_column_order {parser : StrToFloat}
    (d1 d2 : dict) (fields1 fields2 : list value) (rows1 rows2 : list (list value)) :
  dict_get d1 "fields" = Some (VList fields1) ->
  dict_get d1 "data" = Some (VList (VList <$> rows1)) ->
  dict_get d2 "fields" = Some (VList fields2) ->
  dict_get d2 "data" = Some (VList (VList <$> rows2)) ->
  NoDup fields1 ->
  Forall2 (fun cells1 cells2 =>
             length cells1 = length fields1 /\ length cells2 = length fields2 /\
             zip fields1 cells1 ≡ₚ zip fields2 cells2) rows1 rows2 ->
  convert_to_kstars_format (Some d1) = convert_to_kstars_format (Some d2).
Proof.
  intros Hf1 Hd1 Hf2 Hd2 Hnodup Hrows.
  rewrite (convert_unfold _ _ _ Hf1 Hd1), (convert_unfold _ _ _ Hf2 Hd2).
  f_equal. apply mapM_ext_Forall2. apply Forall2_fmap.
  eapply Forall2_impl; [exact Hrows|].
  intros cells1 cells2 (Hlen1 & Hlen2 & Hperm). by apply convert_row_permuted.
Qed.

Lemma convert_ignores_column_order_witness :
  convert_to_kstars_format (H := plain_decimal) (Some halley_payload) =
  convert_to_kstars_format (H := plain_decimal) (Some halley_payload_reordered).
Proof.
  apply (convert_ignores_column_order (parser := plain_decimal)
           halley_payload halley_payload_reordered
           [VStr "per"; VStr "full_name"; VStr "epoch"; VStr "e"]
           [VStr "full_name"; VStr "e"; VStr "epoch"; VStr "per"]
           [[VStr "27740.5"; VStr "1P/Halley"; VStr "2450000.5"; VStr "0.967"];
            [VStr "1204"; VStr "2P/Encke"; VStr "51544"; VNone]]
           [[VStr "1P/Halley"; VStr "0.967"; VStr "2450000.5"; VStr "27740.5"];
            [VStr "2P/Encke"; VNone; VStr "51544"; VStr "1204"]]).
  - reflexivity.
  - reflexivity.
  - reflexivity.
  - reflexivity.
  - repeat (apply NoDup_cons_2;
            [intros H; repeat (apply elem_of_cons in H as [H|H]; [discriminate|]);
             by apply elem_of_nil in H|]).
    apply NoDup_nil_2.
  - repeat constructor;
      (etransitivity; [apply Permutation_cons_append|]; cbn;
       apply perm_skip, perm_swap).
Defined.

(** X10.  Only the columns named by the chain count: two tables with
    distinct field names that hold the same cells under the twelve source
    names are converted to the same KStars object, whatever other columns
    either of them has. *)
Theorem convert_ignores_other_columns {parser : StrToFloat}
    (d1 d2 : dict) (fields1 fields2 : list value) (rows1 rows2 : list (list value)) :
  dict_get d1 "fields" = Some (VList fields1) ->
  dict_get d1 "data" = Some (VList (VList <$> rows1)) ->
  dict_get d2 "fields" = Some (VList fields2) ->
  dict_get d2 "data" = Some (VList (VList <$> rows2)) ->
  NoDup fields1 ->
  Forall2 (fun cells1 cells2 =>
             length cells1 = length fields1 /\ length cells2 = length fields2 /\
             forall src tgt v, (src, tgt) ∈ field_pairs ->
               (VStr src, v) ∈ zip fields1 cells1 <-> (VStr src, v) ∈ zip fields2 cells2)
          rows1 rows2 ->
  convert_to_kstars_format (Some d1) = convert_to_kstars_format (Some d2).
Proof.
  intros Hf1 Hd1 Hf2 Hd2 Hnodup Hrows.
  rewrite (convert_unfold _ _ _ Hf1 Hd1), (convert_unfold _ _ _ Hf2 Hd2).
  f_equal. apply mapM_ext_Forall2. apply Forall2_fmap.
  eapply Forall2_impl; [exact Hrows|].
  intros cells1 cells2 (Hlen1 & Hlen2 & Hsame). by apply convert_row_agree.
Qed.

Lemma convert_ignores_other_columns_witness :
  convert_to_kstars_format (H := plain_decimal)
    (Some [("fields"%string, VList [VStr "full_name"; VStr "per"]);
           ("data"%string, VList (VList <$> [[VStr "1P/Halley"; VStr "27740.5"]]))]) =
  convert_to_kstars_format (H := plain_decimal)
    (Some [("fields"%string, VList [VStr "pdes"; VStr "per"; VStr "full_name"]);
           ("data"%string,
            VList (VList <$> [[VStr "1P"; VStr "27740.5"; VStr "1P/Halley"]]))]).
Proof.
  apply (convert_ignores_other_columns (parser := plain_decimal)
           [("fields"%string, VList [VStr "full_name"; VStr "per"]);
            ("data"%string, VList (VList <$> [[VStr "1P/Halley"; VStr "27740.5"]]))]
           [("fields"%string, VList [VStr "pdes"; VStr "per"; VStr "full_name"]);
            ("data"%string,
             VList (VList <$> [[VStr "1P"; VStr "27740.5"; VStr "1P/Halley"]]))]
           [VStr "full_name"; VStr "per"] [VStr "pdes"; VStr "per"; VStr "full_name"]
           [[VStr "1P/Halley"; VStr "27740.5"]]
           [[VStr "1P"; VStr "27740.5"; VStr "1P/Halley"]]).
  - reflexivity.
  - reflexivity.
  - reflexivity.
  - reflexivity.
  - repeat (apply NoDup_cons_2;
            [intros H; repeat (apply elem_of_cons in H as [H|H]; [discriminate|]);
             by apply elem_of_nil in H|]).
    apply NoDup_nil_2.
  - constructor; [|constructor].
    split; [reflexivity|]. split; [reflexivity|].
    intros src tgt v Hpair. cbn.
    rewrite !elem_of_cons, !elem_of_nil. split.
    + intros [[= -> ->]|[[= -> ->]|[]]]; tauto.
    + intros [[= -> ->]|[[= -> ->]|[[= -> ->]|[]]]]; [|tauto|tauto].
      exfalso. unfold field_pairs in Hpair.
      repeat (apply elem_of_cons in Hpair as [Hpair|Hpair]; [discriminate|]).
      by apply elem_of_nil in Hpair.
Defined.

(** ** The driver *)

Lemma apply_limit_list (a : args) (d : dict) rows n w :
  arg_limit a = Some n -> n <> 0 -> dict_get d "data" = Some (VList rows) ->
  apply_limit a d w =
  (Ok (dict_set d "data" (VList (slice_to rows n))),
   World (files w) (refused w) (console w ++ [LimitedResults n])).
Proof.
  intros Hn Hnz Hd. unfold apply_limit, limit_given, dict_has. rewrite Hn, Hd.
  replace (n =? 0) with false by (symmetry; by apply Z.eqb_neq).
  cbn [negb andb default from_option id]. unfold mbind, io_bind, lift, dict_lookup.
  by rewrite Hd.
Qed.

Lemma main_unfold {parser : StrToFloat} (a : args) (d : dict) w :
  d <> [] ->
  main a (Some d) w =
  (d' ← apply_limit a d; '(success, filename) ← save a d'; report a d' success filename) w.
Proof.
  intros Hd. unfold main. cbn [payload_value default from_option id].
  by destruct d.
Qed.

(** X11.  A negative [--limit] is not rejected: [data[:N]] drops the last
    [-N] rows, so the payload handed to the writer keeps the first
    [M + N] rows of the [M] fetched (none if [M + N <= 0]), every other
    key unchanged. *)
Theorem negative_limit_drops_last_rows {parser : StrToFloat}
    (a : args) (d : dict) (rows : list value) (n : Z) (w : world) :
  arg_limit a = Some n -> n < 0 ->
  dict_get d "data" = Some (VList rows) ->
  exists d',
    main a (Some d) w =
      ('(success, filename) ← save a d'; report a d' success filename)
        (World (files w) (refused w) (console w ++ [LimitedResults n])) /\
    dict_get d' "data" = Some (VList (take (length rows - Z.to_nat (- n)) rows)) /\
    (forall key, key <> "data"%string -> dict_get d' key = dict_get d key).
Proof.
  intros Hn Hneg Hd.
  exists (dict_set d "data" (VList (slice_to rows n))). split; [|split].
  - rewrite main_unfold by (intros ->; discriminate).
    unfold mbind at 1, io_bind at 1.
    rewrite (apply_limit_list a d rows n w Hn) by (done || lia). reflexivity.
  - rewrite dict_get_set. unfold slice_to.
    replace (0 <=? n) with false by (symmetry; apply Z.leb_gt; lia).
    do 3 f_equal. lia.
  - intros key Hkey. by apply dict_get_set_other.
Qed.

Lemma negative_limit_drops_last_rows_witness :
  exists d',
    main (H := plain_decimal) (Args FormatCsv "comets" false false (Some (-1)))
      (Some halley_payload) empty_world =
      ('(success, filename) ←
         save (H := plain_decimal) (Args FormatCsv "comets" false false (Some (-1))) d';
       report (Args FormatCsv "comets" false false (Some (-1))) d' success filename)
        (World (files empty_world) (refused empty_world)
           (console empty_world ++ [LimitedResults (-1)])) /\
    dict_get d' "data" =
      Some (VList (take (length
                     [VList [VStr "27740.5"; VStr "1P/Halley"; VStr "2450000.5"; VStr "0.967"];
                      VList [VStr "1204"; VStr "2P/Encke"; VStr "51544"; VNone]]
                   - Z.to_nat (- -1))
              [VList [VStr "27740.5"; VStr "1P/Halley"; VStr "2450000.5"; VStr "0.967"];
               VList [VStr "1204"; VStr "2P/Encke"; VStr "51544"; VNone]])) /\
    (forall key, key <> "data"%string -> dict_get d' key = dict_get halley_payload key).
Proof.
  apply (negative_limit_drops_last_rows (parser := plain_decimal)
           (Args FormatCsv "comets" false false (Some (-1))) halley_payload
           [VList [VStr "27740.5"; VStr "1P/Halley"; VStr "2450000.5"; VStr "0.967"];
            VList [VStr "1204"; VStr "2P/Encke"; VStr "51544"; VNone]] (-1) empty_world).
  - reflexivity.
  - reflexivity.
  - reflexivity.
Defined.

(** X12.  With [--limit] given (and not 0), a [data] that cannot be sliced
    (a dictionary, [null], a number) ends the run with the exception of
    the slice, uncaught: no writer runs, no file is touched and nothing is
    printed. *)
Theorem limit_on_unsliceable_data {parser : StrToFloat}
    (a : args) (d : dict) (rows : value) (n : Z) (e : exn) (w : world) :
  arg_limit a = Some n -> n <> 0 ->
  dict_get d "data" = Some rows -> py_slice_to rows n = Raise e ->
  main a (Some d) w = (Raise e, w).
Proof.
  intros Hn Hnz Hd Hslice.
  rewrite main_unfold by (intros ->; discriminate).
  unfold mbind at 1, io_bind at 1, apply_limit, limit_given, dict_has.
  rewrite Hn, Hd.
  replace (n =? 0) with false by (symmetry; by apply Z.eqb_neq).
  cbn [negb andb default from_option id]. unfold mbind, io_bind, lift, dict_lookup.
  by rewrite Hd, Hslice.
Qed.

Lemma limit_on_unsliceable_data_witness :
  main (H := plain_decimal) (Args FormatJson "comets" false false (Some 5))
    (Some [("fields"%string, VList [VStr "full_name"]); ("data"%string, VNone)])
    earlier_world
  = (Raise TypeError, earlier_world).
Proof.
  apply (limit_on_unsliceable_data (parser := plain_decimal)
           (Args FormatJson "comets" false false (Some 5))
           [("fields"%string, VList [VStr "full_name"]); ("data"%string, VNone)]
           VNone 5 TypeError earlier_world).
  - reflexivity.
  - discriminate.
  - reflexivity.
  - reflexivity.
Defined.

Lemma confined_save {parser : StrToFloat} (a : args) (d : dict) :
  confined_to (output_file a) (save a d).
Proof.
  unfold save, output_file. destruct (arg_format a).
  - apply confined_bind; [apply confined_save_as_json | intros ?; apply confined_ret].
  - apply confined_bind; [apply confined_save_as_csv | intros ?; apply confined_ret].
  - apply confined_bind; [apply confined_save_as_kstars | intros ?; apply confined_ret].
Qed.

Lemma confined_apply_limit filename (a : args) (d : dict) :
  confined_to filename (apply_limit a d).
Proof. unfold apply_limit. confine. Qed.

Lemma confined_report filename (a : args) (d : dict) success name :
  confined_to filename (report a d success name).
Proof. unfold report. confine; destruct (arg_format a); confine. Qed.

(** What the writer chosen by the format returns, and where it wrote. *)
Lemma save_outcome {parser : StrToFloat} (a : args) (d : dict) w :
  exists b,
    (save a d w).1 = Ok (b, output_file a) /\
    (b = true -> is_Some (files (save a d w).2 !! output_file a)).
Proof.
  unfold save, output_file. destruct (arg_format a); unfold mbind, io_bind, mret, io_ret.
  - pose proof (save_as_json_returns (Some d) (arg_output a ++ ".json") w) as [b Hb].
    pose proof (save_as_json_cases (Some d) (arg_output a ++ ".json") w) as Hcases.
    destruct (save_as_json _ _ w) as [r w1]. cbn [fst snd] in *. subst r.
    exists b. split; [done|]. intros ->.
    destruct Hcases as [[_ Hfiles]|[Hfalse _]]; [|discriminate].
    cbn [snd]. rewrite Hfiles, lookup_insert_eq. by eexists.
  - pose proof (save_as_csv_returns (Some d) (arg_output a ++ ".csv") w) as [b Hb].
    destruct (save_as_csv (Some d) (arg_output a ++ ".csv") w) as [r w1] eqn:Hsave.
    cbn [fst snd] in *. subst r. exists b. split; [done|]. intros ->.
    destruct (save_as_csv_true_inv _ _ _ _ Hsave) as (? & ? & ? & ? & ? & ? & Hrest).
    destruct Hrest as (_ & _ & _ & _ & _ & _ & _ & Hfiles & _).
    cbn [snd]. rewrite Hfiles, lookup_insert_eq. by eexists.
  - pose proof (save_as_kstars_returns (Some d) (arg_output a ++ ".dat") w) as [b Hb].
    pose proof (save_as_kstars_cases (Some d) (arg_output a ++ ".dat") w) as Hcases.
    destruct (save_as_kstars _ _ w) as [r w1]. cbn [fst snd] in *. subst r.
    exists b. split; [done|]. intros ->.
    destruct Hcases as [(v & _ & _ & Hfiles)|[Hfalse _]]; [|discriminate].
    cbn [snd]. rewrite Hfiles, lookup_insert_eq. by eexists.
Qed.

Lemma report_outcome (a : args) (d : dict) success name w r w' :
  report a d success name w = (r, w') ->
  forall code, r = Ok code ->
    (code = 0 /\ success = true /\ SuccessfullyDownloaded name ∈ console w') \/
    (code = 1 /\ success = false).
Proof.
  unfold report. destruct success; [|intros [= <- <-] code [= <-]; by right].
  unfold mbind at 1, io_bind at 1.
  change (print (SuccessfullyDownloaded name) w)
    with (Ok tt, World (files w) (refused w) (console w ++ [SuccessfullyDownloaded name])).
  cbv beta iota. intros Hrest code ->. left.
  assert (forall c : io Z, confined_to name c -> forall w1 w2 code,
            c w1 = (Ok code, w2) -> SuccessfullyDownloaded name ∈ console w1 ->
            SuccessfullyDownloaded name ∈ console w2) as Hkeep.
  { intros c Hc w1 w2 code' Hrun Hin. destruct (Hc _ _ _ Hrun) as (_ & _ & printed & ->).
    apply elem_of_app. by left. }
  assert (code = 0) as ->.
  { revert Hrest. unfold mbind, io_bind, mret, io_ret, print, lift.
    repeat match goal with
           | |- context [match ?x with _ => _ end] => destruct x
           end; congruence. }
  split; [done|]. split; [done|].
  eapply Hkeep; [|exact Hrest|].
  - confine; destruct (arg_format a); confine.
  - cbn. apply elem_of_app. right. constructor.
Qed.

(** An action confined to any file changes none. *)
Lemma confined_everywhere {A} (c : io A) w r w' :
  (forall filename, confined_to filename c) -> c w = (r, w') -> files w' = files w.
Proof.
  intros Hc Hrun. apply map_eq. intros name.
  destruct (decide (name = "a"%string)) as [->|Hne].
  - destruct (Hc "b"%string _ _ _ Hrun) as (_ & Hfiles & _). by apply Hfiles.
  - destruct (Hc "a"%string _ _ _ Hrun) as (_ & Hfiles & _). by apply Hfiles.
Qed.

Lemma confined_main {parser : StrToFloat} (a : args) fetched :
  confined_to (output_file a) (main a fetched).
Proof.
  unfold main. destruct (negb _); [apply confined_ret|].
  apply confined_bind; [apply confined_apply_limit|]. intros d.
  apply confined_bind; [apply confined_save|]. intros [success name].
  apply confined_report.
Qed.

(** X13.  Whatever [main] is given after the fetch, it changes no file
    but the output file of the chosen format (the base name with [.csv],
    [.dat] or [.json]); and when it ends with status 0 that file exists
    and the success line was printed, any other normal end being
    status 1. *)
Theorem main_exit_status {parser : StrToFloat}
    (a : args) (fetched : option dict) (w w' : world) (r : result Z) :
  main a fetched w = (r, w') ->
  refused w' = refused w /\
  (forall other : string, other <> output_file a -> files w' !! other = files w !! other) /\
  (forall code, r = Ok code ->
     (code = 0 /\ is_Some (files w' !! output_file a) /\
      SuccessfullyDownloaded (output_file a) ∈ console w') \/
     code = 1).
Proof.
  intros Hmain.
  destruct (confined_main a fetched _ _ _ Hmain) as (Hrefused & Hfiles & _).
  split; [exact Hrefused|]. split; [exact Hfiles|].
  intros code ->. revert Hmain. unfold main.
  destruct (negb _); [intros [= <- <-]; by right|].
  unfold mbind at 1, io_bind at 1.
  destruct (apply_limit a (default [] fetched) w) as [[d|e] w1]; [|discriminate].
  unfold mbind at 1, io_bind at 1.
  destruct (save_outcome a d w1) as (success & Hsave & Hfile).
  destruct (save a d w1) as [saved w2]. cbn [fst snd] in *. subst saved.
  intros Hreport.
  destruct (report_outcome _ _ _ _ _ _ _ Hreport code eq_refl)
    as [(-> & -> & Hline)|[-> _]]; [left|by right].
  split; [done|]. split; [|exact Hline].
  rewrite (confined_everywhere _ _ _ _ (fun name => confined_report name a d true _) Hreport).
  by apply Hfile.
Qed.

Lemma main_exit_status_witness :
  refused (World {[ "comets.csv"%string :=
                      [CsvRecord [VStr "per"; VStr "full_name"; VStr "epoch"; VStr "e"];
                       CsvRecord [VStr "27740.5"; VStr "1P/Halley"; VStr "2450000.5";
                                  VStr "0.967"];
                       CsvRecord [VStr "1204"; VStr "2P/Encke"; VStr "51544"; VNone]] ]} ∅
             [DataSavedTo "comets.csv"; SuccessfullyDownloaded "comets.csv";
              TotalRecords 2]) = refused empty_world /\
  (forall other : string,
     other <> output_file (Args FormatCsv "comets" false false None) ->
     files (World {[ "comets.csv"%string :=
                      [CsvRecord [VStr "per"; VStr "full_name"; VStr "epoch"; VStr "e"];
                       CsvRecord [VStr "27740.5"; VStr "1P/Halley"; VStr "2450000.5";
                                  VStr "0.967"];
                       CsvRecord [VStr "1204"; VStr "2P/Encke"; VStr "51544"; VNone]] ]} ∅
             [DataSavedTo "comets.csv"; SuccessfullyDownloaded "comets.csv";
              TotalRecords 2]) !! other = files empty_world !! other) /\
  (forall code, Ok 0 = Ok code ->
     (code = 0 /\
      is_Some (files (World {[ "comets.csv"%string :=
                      [CsvRecord [VStr "per"; VStr "full_name"; VStr "epoch"; VStr "e"];
                       CsvRecord [VStr "27740.5"; VStr "1P/Halley"; VStr "2450000.5";
                                  VStr "0.967"];
                       CsvRecord [VStr "1204"; VStr "2P/Encke"; VStr "51544"; VNone]] ]} ∅
             [DataSavedTo "comets.csv"; SuccessfullyDownloaded "comets.csv";
              TotalRecords 2])
               !! output_file (Args FormatCsv "comets" false false None)) /\
      SuccessfullyDownloaded (output_file (Args FormatCsv "comets" false false None))
      ∈ console (World {[ "comets.csv"%string :=
                      [CsvRecord [VStr "per"; VStr "full_name"; VStr "epoch"; VStr "e"];
                       CsvRecord [VStr "27740.5"; VStr "1P/Halley"; VStr "2450000.5";
                                  VStr "0.967"];
                       CsvRecord [VStr "1204"; VStr "2P/Encke"; VStr "51544"; VNone]] ]} ∅
             [DataSavedTo "comets.csv"; SuccessfullyDownloaded "comets.csv";
              TotalRecords 2])) \/
     code = 1).
Proof.
  apply (main_exit_status (parser := plain_decimal)
           (Args FormatCsv "comets" false false None) (Some halley_payload) empty_world).
  vm_compute. reflexivity.
Defined.

(** ** The fetch and what follows *)


Lemma get_comet_data_no_rows_key output_format include_fragments numbered_only service
    (d : dict) :
  service (Request base_url (build_params include_fragments numbered_only) 30) = Body d ->
  dict_has d "data" = false ->
  get_comet_data output_format include_fragments numbered_only service =
  ([FetchingCometData; ShowUrl base_url;
    ShowParameters (build_params include_fragments numbered_only);
    WarningNoDataField; ResponsePreview d], Ok (Some d)).
Proof. intros Hservice Hd. unfold get_comet_data. by rewrite Hservice, Hd. Qed.



(** X15.  When the request fails or the body is not JSON, the fetch
    returns [None] after one error line and the run ends with status 1:
    no writer runs, no file is touched, nothing else is printed. *)
Theorem run_after_failed_fetch {parser : StrToFloat}
    (a : args) (service : request -> outcome) (w : world) :
  service (Request base_url
             (build_params (arg_include_fragments a) (arg_numbered_only a)) 30)
    = RequestFailed \/
  service (Request base_url
             (build_params (arg_include_fragments a) (arg_numbered_only a)) 30)
    = DecodeFailed ->
  exists line,
    (line = ErrorFetchingData \/ line = ErrorParsingJSON) /\
    get_comet_data (format_name (arg_format a)) (arg_include_fragments a)
      (arg_numbered_only a) service =
      ([FetchingCometData; ShowUrl base_url;
        ShowParameters (build_params (arg_include_fragments a) (arg_numbered_only a));
        line], Ok None) /\
    main_with_fetch a service w =
      ([FetchingCometData; ShowUrl base_url;
        ShowParameters (build_params (arg_include_fragments a) (arg_numbered_only a));
        line], (Ok 1, w)).
Proof.
  intros [Hservice|Hservice];
    [exists ErrorFetchingData | exists ErrorParsingJSON];
    (split; [tauto|]); unfold main_with_fetch, get_comet_data; by rewrite Hservice.
Qed.

Lemma run_after_failed_fetch_witness :
  exists line,
    (line = ErrorFetchingData \/ line = ErrorParsingJSON) /\
    get_comet_data (format_name FormatKstars) true false (always RequestFailed) =
      ([FetchingCometData; ShowUrl base_url; ShowParameters (build_params true false);
        line], Ok None) /\
    main_with_fetch (H := plain_decimal) (Args FormatKstars "comets" true false None)
      (always RequestFailed) earlier_world =
      ([FetchingCometData; ShowUrl base_url; ShowParameters (build_params true false);
        line], (Ok 1, earlier_world)).
Proof.
  apply (run_after_failed_fetch (parser := plain_decimal)
           (Args FormatKstars "comets" true false None) (always RequestFailed)
           earlier_world).
  left. reflexivity.
Defined.

(** X16.  A body whose [data] has no length ([null], a number, a boolean)
    is not caught by the fetch: [len(data['data'])] raises inside the
    "Successfully retrieved" line, the handlers are for request and JSON
    errors only, and the run ends with that exception before anything is
    written. *)
Theorem run_with_unsized_data {parser : StrToFloat}
    (a : args) (service : request -> outcome) (d : dict) (rows : value) (e : exn)
    (w : world) :
  service (Request base_url
             (build_params (arg_include_fragments a) (arg_numbered_only a)) 30) = Body d ->
  dict_get d "data" = Some rows -> py_len rows = Raise e ->
  get_comet_data (format_name (arg_format a)) (arg_include_fragments a)
    (arg_numbered_only a) service =
    ([FetchingCometData; ShowUrl base_url;
      ShowParameters (build_params (arg_include_fragments a) (arg_numbered_only a))],
     Raise e) /\
  main_with_fetch a service w =
    ([FetchingCometData; ShowUrl base_url;
      ShowParameters (build_params (arg_include_fragments a) (arg_numbered_only a))],
     (Raise e, w)).
Proof.
  intros Hservice Hd Hlen.
  assert (get_comet_data (format_name (arg_format a)) (arg_include_fragments a)
            (arg_numbered_only a) service =
          ([FetchingCometData; ShowUrl base_url;
            ShowParameters (build_params (arg_include_fragments a) (arg_numbered_only a))],
           Raise e)) as Hfetch.
  { unfold get_comet_data, dict_has, dict_lookup. rewrite Hservice, Hd. cbn.
    by rewrite Hlen. }
  split; [exact Hfetch|]. unfold main_with_fetch. by rewrite Hfetch.
Qed.

Lemma run_with_unsized_data_witness :
  get_comet_data (format_name FormatJson) false false
    (always (Body [("data"%string, VNone)])) =
    ([FetchingCometData; ShowUrl base_url; ShowParameters (build_params false false)],
     Raise TypeError) /\
  main_with_fetch (H := plain_decimal) (Args FormatJson "comets" false false None)
    (always (Body [("data"%string, VNone)])) earlier_world =
    ([FetchingCometData; ShowUrl base_url; ShowParameters (build_params false false)],
     (Raise TypeError, earlier_world)).
Proof.
  apply (run_with_unsized_data (parser := plain_decimal)
           (Args FormatJson "comets" false false None)
           (always (Body [("data"%string, VNone)])) [("data"%string, VNone)] VNone
           TypeError earlier_world).
  - reflexivity.
  - reflexivity.
  - reflexivity.
Defined.

(** X17.  An answer without [data] (an error message of the service) goes
    through the fetch with a warning, and what follows depends on the
    format, whatever [--limit] is: with [json] the answer is saved as
    received and the status is 0; with [csv] or [kstars] nothing is
    written and the status is 1. *)
Theorem run_without_data_key {parser : StrToFloat}
    (a : args) (service : request -> outcome) (d : dict) (w : world) :
  service (Request base_url
             (build_params (arg_include_fragments a) (arg_numbered_only a)) 30) = Body d ->
  dict_has d "data" = false -> d <> [] ->
  output_file a ∉ refused w ->
  main_with_fetch a service w =
    ([FetchingCometData; ShowUrl base_url;
      ShowParameters (build_params (arg_include_fragments a) (arg_numbered_only a));
      WarningNoDataField; ResponsePreview d],
     match arg_format a with
     | FormatJson =>
         (Ok 0,
          World (<[output_file a := JsonChunk <$> json_tokens indent2 0 (VDict d)]> (files w))
                (refused w)
                (console w ++ [DataSavedTo (output_file a);
                               SuccessfullyDownloaded (output_file a)]))
     | FormatCsv =>
         (Ok 1, World (files w) (refused w) (console w ++ [NoDataToSave]))
     | FormatKstars =>
         (Ok 1, World (files w) (refused w) (console w ++ [ErrorConvertingToKStars]))
     end).
Proof.
  intros Hservice Hdata Hd Hfile.
  assert (truthy (VDict d) = true) as Htrue by (by destruct d).
  assert (payload_missing (Some d) = true) as Hmissing.
  { unfold payload_missing. by rewrite Hdata, Htrue. }
  unfold main_with_fetch.
  rewrite (get_comet_data_no_rows_key _ _ _ _ d Hservice Hdata). f_equal.
  rewrite main_unfold by done.
  unfold mbind at 1, io_bind at 1, apply_limit. rewrite Hdata, andb_false_r.
  cbn [mret io_ret]. unfold mbind at 1, io_bind at 1, save.
  revert Hfile. unfold output_file. destruct (arg_format a) eqn:Hformat; intros Hfile;
    unfold mbind at 1, io_bind at 1.
  - rewrite (save_as_json_written (Some d)) by done.
    cbn [mret io_ret payload_value]. unfold report, mbind, io_bind, print, lift.
    rewrite Hdata, Hformat. cbn [mret io_ret files refused console].
    by rewrite <- app_assoc.
  - by rewrite (save_as_csv_missing _ _ _ Hmissing).
  - rewrite (save_as_kstars_refusal _ _ _ VNone); [done | done | | done].
    by apply convert_without_keys.
Qed.

Lemma run_without_data_key_witness :
  main_with_fetch (H := plain_decimal) (Args FormatJson "comets" false false (Some 3))
    (always (Body message_payload)) empty_world =
    ([FetchingCometData; ShowUrl base_url; ShowParameters (build_params false false);
      WarningNoDataField; ResponsePreview message_payload],
     (Ok 0,
      World (<[output_file (Args FormatJson "comets" false false (Some 3)) :=
               JsonChunk <$> json_tokens indent2 0 (VDict message_payload)]>
               (files empty_world))
            (refused empty_world)
            (console empty_world
             ++ [DataSavedTo (output_file (Args FormatJson "comets" false false (Some 3)));
                 SuccessfullyDownloaded
                   (output_file (Args FormatJson "comets" false false (Some 3)))]))).
Proof.
  apply (run_without_data_key (parser := plain_decimal)
           (Args FormatJson "comets" false false (Some 3)) (always (Body message_payload))
           message_payload empty_world).
  - reflexivity.
  - reflexivity.
  - discriminate.
  - cbn. apply not_elem_of_empty.
Defined.

(** ** The fields asked for and the fields read *)

Lemma last_index_cases P fields : forall i found,
  (last_index P fields i found = found /\ Forall (fun f => P f = false) fields) \/
  (exists j f, fields !! j = Some f /\ P f = true /\
               last_index P fields i found = Some (i + j)%nat).
Proof.
  induction fields as [|g rest IH]; intros i found; [left; by split|].
  cbn [last_index].
  destruct (IH (S i) (if P g then Some i else found))
    as [[Hsame Hnone]|(j & f & Hj & HP & Hlast)].
  - destruct (P g) eqn:Hg.
    + right. exists 0%nat, g. rewrite Hsame. repeat split; [done|]. f_equal. lia.
    + left. split; [done|]. by constructor.
  - right. exists (S j), f. rewrite Hlast. repeat split; [done|done|]. f_equal. lia.
Qed.

(** A source field that occurs gets a column that carries its name. *)
Lemma field_map_finds_source fields src tgt :
  (src, tgt) ∈ field_pairs -> VStr src ∈ fields ->
  exists j, fill_field_map fields 0 ∅ !! tgt = Some j /\ fields !! j = Some (VStr src).
Proof.
  intros Hpair Hin. rewrite fill_field_map_lookup.
  destruct (last_index_cases (fun f => bool_decide (key_of f = Some tgt)) fields 0
              ((∅ : gmap string nat) !! tgt)) as [[_ Hnone]|(j & f & Hj & HP & ->)].
  - rewrite Forall_forall in Hnone. specialize (Hnone _ Hin).
    apply bool_decide_eq_false in Hnone. by rewrite (key_of_pair _ _ Hpair) in Hnone.
  - exists j. split; [done|]. apply bool_decide_eq_true in HP.
    by rewrite <- (key_of_same_field _ _ _ HP (key_of_pair _ _ Hpair)).
Qed.

(** X18.  The fetch asks for what the conversion reads: the [fields]
    parameter of every request lists the 21 requested names, the twelve
    source fields of the chain are among them, and so for an answer that
    carries every requested field, in any order and with any other field
    beside, each of the twelve KStars fields of the chain gets the column
    of its source field. *)
Theorem requested_fields_feed_the_chain (fields : list value) :
  (forall name, name ∈ requested_fields -> VStr name ∈ fields) ->
  (forall include_fragments numbered_only,
     param_get (build_params include_fragments numbered_only) "fields" =
     Some (join "," requested_fields)) /\
  (forall src tgt, (src, tgt) ∈ field_pairs ->
     src ∈ requested_fields /\
     exists j, fill_field_map fields 0 ∅ !! tgt = Some j /\
               fields !! j = Some (VStr src)).
Proof.
  intros Hall. split; [by intros [] []|].
  intros src tgt Hpair.
  assert (src ∈ requested_fields) as Hsrc.
  { revert Hpair. unfold field_pairs, requested_fields.
    rewrite !elem_of_cons, !elem_of_nil.
    intros H. repeat (destruct H as [[= -> ->]|H]; [tauto|]). done. }
  split; [exact Hsrc|]. apply field_map_finds_source; auto.
Qed.

Lemma requested_fields_feed_the_chain_witness :
  (forall include_fragments numbered_only,
     param_get (build_params include_fragments numbered_only) "fields" =
     Some (join "," requested_fields)) /\
  (forall src tgt, (src, tgt) ∈ field_pairs ->
     src ∈ requested_fields /\
     exists j, fill_field_map (VStr <$> requested_fields) 0 ∅ !! tgt = Some j /\
               (VStr <$> requested_fields) !! j = Some (VStr src)).
Proof.
  apply (requested_fields_feed_the_chain (VStr <$> requested_fields)).
  intros name Hname. by apply list_elem_of_fmap_2.
Defined.

(** The request, spelled out. *)
Example default_request :
  build_params false false =
  [("sb-kind", "c");
   ("fields",
    "full_name,pdes,name,prefix,class,epoch,e,a,q,i,om,w,tp,per,moid,t_jup,H,first_obs,last_obs,data_arc,n_obs_used");
   ("full-prec", "1"); ("sb-xfrag", "1")]%string.
Proof. reflexivity. Qed.

(** ** [get_all_comets_csv] *)

(** X19.  [get_all_comets_csv] does not look at what the writer returns:
    for every non-empty payload that the fetch returns the result is
    [True], the world being as [save_as_csv] left it; in particular the
    result is [True] with no file written when the payload lacks [data]
    or [fields]. *)
Theorem get_all_comets_csv_ignores_the_writer
    (service : request -> outcome) (d : dict) (printed : list fetch_line) (w : world) :
  get_comet_data "json" false false service = (printed, Ok (Some d)) ->
  d <> [] ->
  get_all_comets_csv service w =
    (printed, (Ok true, (save_as_csv (Some d) "comets.csv" w).2)) /\
  (payload_missing (Some d) = true ->
   files (save_as_csv (Some d) "comets.csv" w).2 = files w /\
   (save_as_csv (Some d) "comets.csv" w).1 = Ok false).
Proof.
  intros Hfetch Hd. split.
  - unfold get_all_comets_csv. rewrite Hfetch. cbn [payload_value].
    replace (truthy (VDict d)) with true by (by destruct d).
    f_equal. unfold mbind, io_bind.
    destruct (save_as_csv_returns (Some d) "comets.csv" w) as [b Hb].
    destruct (save_as_csv (Some d) "comets.csv" w) as [r w1]. cbn in Hb. by subst r.
  - intros Hmissing. by rewrite (save_as_csv_missing _ _ _ Hmissing).
Qed.

Lemma get_all_comets_csv_ignores_the_writer_witness :
  get_all_comets_csv (always (Body message_payload)) empty_world =
    ([FetchingCometData; ShowUrl base_url; ShowParameters (build_params false false);
      WarningNoDataField; ResponsePreview message_payload],
     (Ok true, (save_as_csv (Some message_payload) "comets.csv" empty_world).2)) /\
  (payload_missing (Some message_payload) = true ->
   files (save_as_csv (Some message_payload) "comets.csv" empty_world).2
   = files empty_world /\
   (save_as_csv (Some message_payload) "comets.csv" empty_world).1 = Ok false).
Proof.
  apply (get_all_comets_csv_ignores_the_writer (always (Body message_payload))
           message_payload _ empty_world).
  - reflexivity.
  - discriminate.
Defined.
